(** * gokv / sqlc: the SQL-backed key/value client and its cache

    A shallow embedding of [pkg/sqlc] (the [Client] with its in-memory
    [Cache], [Keys], [Set], [Get], [Del] and [Refresh], and the [Client]
    without a cache that goes through the codec), of the functional options
    of [store.go] and of [pkg/util], together with the properties of the
    cache-coherence protocol.

    The relational engine, [text/template], the clock and the codec are
    external collaborators: they appear as an interface ([Driver], [Codec])
    over an abstract world [W], and every call threads the world, so that an
    operation that touches the backing store can be told from one that does
    not. *)

From stdpp Require Import base strings pretty gmap list.
From Stdlib Require Import ZArith.

Local Open Scope Z_scope.
Local Open Scope string_scope.

(** ** Errors

    Go's [error] interface is [option error]; [None] is [nil]. *)

Inductive error : Type :=
| ErrEmptyKey                         (* util.ErrEmptyKey *)
| ErrTooManyValues                    (* sqlc.ErrTooManyValues *)
| ErrNoRowsAffected                   (* sqlc.ErrNoRowsAffected *)
| Errorf_w (k : string) (e : error)   (* fmt.Errorf("key:%s, error:%w", k, e) *)
| External (msg : string)             (* an error of a collaborator *)
| MultiErr (l r : error)              (* two errors combined by multierr *)
| NilFuncPanic.                       (* calling a nil func value *)

#[global] Instance error_eq_dec : EqDecision error.
Proof. solve_decision. Defined.

(** [multierr.Append]: nil is the unit, two errors are kept both. *)
Definition multierr_Append (left right : option error) : option error :=
  match left, right with
  | None, _ => right
  | _, None => left
  | Some l, Some r => Some (MultiErr l r)
  end.

(** [errors.Is]: the error itself, what [%w] wraps, or a member of a
    combined error. *)
Fixpoint errors_Is (err target : error) : bool :=
  if decide (err = target) then true
  else match err with
       | Errorf_w _ e => errors_Is e target
       | MultiErr l r => errors_Is l target || errors_Is r target
       | _ => false
       end.

(** ** pkg/util *)

Module util.

(** [CheckKey] returns an error if [k == ""]. *)
Definition CheckKey (k : string) : option error :=
  if decide (k = "") then Some ErrEmptyKey else None.

(** [CheckVal] returns nil for every value. *)
Definition CheckVal {V : Type} (v : V) : option error := None.

Definition CheckKeyAndValue {V : Type} (k : string) (v : V) : option error :=
  match CheckKey k with
  | Some err => Some err
  | None => CheckVal v
  end.

End util.

(** ** The external collaborators *)

(** [time.Time] and [time.Duration], as a count of clock units. *)
Definition Time : Type := Z.

(** A scanned row: the nullable text columns of the result set.  A result
    set has at least one column and [rows.Scan] fills one destination per
    column, hence the first column apart; [len(cols) > 1] is [rest <> []]. *)
Definition Row : Type := option string * list (option string).

(** The rows a query delivers, in order, as [rows.Next]/[rows.Scan] hand
    them out: a row whose scan fails, or the scanned columns. *)
Definition Rows : Type := list (error + Row).

(** [sql.Result]: only [RowsAffected() (int64, error)] is ever used. *)
Record Result : Type := mkResult { RowsAffected : error + Z }.

(** [sql.NullString.String]: NULL reads as the empty string. *)
Definition NullString_String (c : option string) : string := default "" c.

(** Scanning a column into a plain [string] destination fails on NULL. *)
Definition scan_string (c : option string) : error + string :=
  match c with
  | Some s => inr s
  | None => inl (External "converting NULL to string is unsupported")
  end.

Class Driver (W : Type) : Type := {
  (* text/template *)
  Template : Type;
  template_Parse : string -> error + Template;
  template_Execute : Template -> gmap string string -> error + string;
  (* time *)
  time_Now : W -> Time * W;
  time_Format : Time -> string;
  (* database/sql *)
  sql_Open : string -> string -> W -> option error * W;
  DB_Close : W -> option error * W;
  DB_QueryContext : string -> W -> (error + Rows) * W;
  DB_ExecContext : string -> W -> (error + Result) * W;
}.

(** What reached the backing store, in order. *)
Inductive Access : Type :=
| AOpen (driverName dataSourceName : string)
| AQuery (query : string)
| AExec (query : string)
| AClose.

#[global] Instance Access_eq_dec : EqDecision Access.
Proof. solve_decision. Defined.

(** The world together with the record of the backing-store calls made. *)
Record Store (W : Type) : Type := mkStore {
  world : W;
  accesses : list Access;
}.
Arguments mkStore {W} _ _.
Arguments world {W} _.
Arguments accesses {W} _.

Section StoreOps.
Context {W : Type} `{Driver W}.

Definition store_Now (s : Store W) : Time * Store W :=
  let '(t, w) := time_Now (world s) in (t, mkStore w (accesses s)).

Definition store_Open (driverName dataSourceName : string) (s : Store W)
  : option error * Store W :=
  let '(e, w) := sql_Open driverName dataSourceName (world s) in
  (e, mkStore w (accesses s ++ [AOpen driverName dataSourceName])).

Definition store_Close (s : Store W) : option error * Store W :=
  let '(e, w) := DB_Close (world s) in
  (e, mkStore w (accesses s ++ [AClose])).

Definition store_Query (query : string) (s : Store W)
  : (error + Rows) * Store W :=
  let '(r, w) := DB_QueryContext query (world s) in
  (r, mkStore w (accesses s ++ [AQuery query])).

Definition store_Exec (query : string) (s : Store W)
  : (error + Result) * Store W :=
  let '(r, w) := DB_ExecContext query (world s) in
  (r, mkStore w (accesses s ++ [AExec query])).

End StoreOps.

(** A clock that does not run backwards: [clock] reads the time of a world;
    [time.Now()] returns a time between the clock before and the clock
    after, and the database calls do not set the clock back. *)
Record ClockLaws {W : Type} `{Driver W} (clock : W -> Time) : Prop := {
  clock_Now : forall w t w',
    time_Now w = (t, w') -> clock w <= t /\ t <= clock w';
  clock_Open : forall d n w e w',
    sql_Open d n w = (e, w') -> clock w <= clock w';
  clock_Close : forall w e w',
    DB_Close w = (e, w') -> clock w <= clock w';
  clock_Query : forall q w r w',
    DB_QueryContext q w = (r, w') -> clock w <= clock w';
  clock_Exec : forall q w r w',
    DB_ExecContext q w = (r, w') -> clock w <= clock w';
}.

(** ** store.go: options and the generator hook
    (the variant with [Option{Expired time.Time}] and string values) *)

Module gokv.

Record Option : Type := mkOption { Option_Expired : Time }.

(** [gokv.Option{}] *)
Definition zeroOption : Option := mkOption 0.

#[global] Instance Option_eq_dec : EqDecision Option.
Proof. solve_decision. Defined.

Section WithDriver.
Context {W : Type} `{Driver W}.

(** [OptionFn], a func on a pointer to [Option]: a closure that rewrites
    the option it is handed;
    it may read the clock, as [Expired] does. *)
Definition OptionFn : Type := Option -> W -> Option * W.
Definition OptionFns : Type := list OptionFn.

(** [func(k string) (string, Option, error)] *)
Definition GeneratorFn : Type :=
  string -> W -> (string * Option * option error) * W.

(** [func (o OptionFns) Apply(option *Option) *Option] *)
Fixpoint OptionFns_Apply (o : OptionFns) (option : Option) (w : W)
  : Option * W :=
  match o with
  | [] => (option, w)
  | f :: o' => let '(option', w') := f option w in
               OptionFns_Apply o' option' w'
  end.

(** [func Expired(v time.Duration) OptionFn] *)
Definition Expired (v : Z) : OptionFn :=
  fun _ w => let '(t, w') := time_Now w in (mkOption (t + v), w').

(** [func Apply(v Option) OptionFn] *)
Definition Apply (v : Option) : OptionFn := fun _ w => (v, w).

End WithDriver.

End gokv.

(** ** pkg/sqlc: the caching client *)

Module sqlc.

(** [codec.Codec], at the one type this client encodes: the option.
    [Unmarshal] writes through the pointer it is given, so it returns the
    option as it left it, also when it fails. *)
Record Codec : Type := mkCodec {
  Marshal : gokv.Option -> error + string;
  Unmarshal : string -> gokv.Option -> option error * gokv.Option;
}.

Record Config : Type := mkConfig {
  DriverName : string;
  DataSourceName : string;
  KeysSQL : string;
  GetSQL : string;
  SetSQL : string;
  DeleteSQL : string;
  Codec_ : Codec;
  RefreshInterval : Z;
}.

(** [CacheValue] is a holder for value and option associated with a key. *)
Record CacheValue : Type := mkCacheValue {
  Value : string;
  Option : gokv.Option;
  UpdateTime : Time;
}.

#[global] Instance CacheValue_eq_dec : EqDecision CacheValue.
Proof. solve_decision. Defined.

(** The mutable part of [Client]: its [Cache], and the backing store it
    talks to. *)
Record Client (W : Type) : Type := mkClient {
  Cache : gmap string CacheValue;
  store : Store W;
}.
Arguments mkClient {W} _ _.
Arguments Cache {W} _.
Arguments store {W} _.

Section WithDriver.
Context {W : Type} `{Driver W}.
Variable cfg : Config.

(** Computations of the client: state passing over [Client W]. *)
Definition M (A : Type) : Type := Client W -> A * Client W.

#[local] Instance M_ret : MRet M := fun A a c => (a, c).
#[local] Instance M_bind : MBind M :=
  fun A B f m c => let '(a, c') := m c in f a c'.

Definition on_store {A : Type} (f : Store W -> A * Store W) : M A :=
  fun c => let '(a, s) := f (store c) in (a, mkClient (Cache c) s).

Definition on_world {A : Type} (f : W -> A * W) : M A :=
  on_store (fun s => let '(a, w) := f (world s) in
                     (a, mkStore w (accesses s))).

(** [v, ok := c.Cache[k]], [c.Cache[k] = cv] and [delete(c.Cache, k)],
    each under [cacheLock]. *)
Definition cache_get (k : string) : M (option CacheValue) :=
  fun c => (Cache c !! k, c).
Definition cache_put (k : string) (cv : CacheValue) : M unit :=
  fun c => (tt, mkClient (<[k := cv]> (Cache c)) (store c)).
Definition cache_delete (k : string) : M unit :=
  fun c => (tt, mkClient (delete k (Cache c)) (store c)).

(** [NewClient]: an empty cache. *)
Definition NewClient (s : Store W) : Client W := mkClient ∅ s.

(** No entry of the cache is stamped later than the clock reads. *)
Definition stamps_ok (clock : W -> Time) (c : Client W) : Prop :=
  forall k cv, Cache c !! k = Some cv ->
               UpdateTime cv <= clock (world (store c)).

(** *** Keys *)

Definition scan_strings (r : Row) : error + (string * list string) :=
  match scan_string r.1, mapM (fun c => match scan_string c with
                                        | inr s => Some s
                                        | inl _ => None
                                        end) r.2 with
  | inr c0, Some rest => inr (c0, rest)
  | inl err, _ => inl err
  | _, None => inl (External "converting NULL to string is unsupported")
  end.

(** The loop of [Keys]: [results = append(results, columns[0])]. *)
Fixpoint Keys_rows (rows : Rows) (results : list string)
  : error + list string :=
  match rows with
  | [] => inr results
  | r :: rows' =>
    match r with
    | inl err => inl err
    | inr row =>
      match scan_strings row with
      | inl err => inl err
      | inr columns => Keys_rows rows' (results ++ [columns.1])
      end
    end
  end.

Definition Client_Keys : M (list string * option error) :=
  match template_Parse (KeysSQL cfg) with
  | inl err => mret ([], Some err)
  | inr t =>
    match template_Execute t ∅ with
    | inl err => mret ([], Some err)
    | inr query =>
      oe ← on_store (store_Open (DriverName cfg) (DataSourceName cfg));
      match oe with
      | Some err => mret ([], Some err)
      | None =>
        '(keys, er) ←
          (r ← on_store (store_Query query);
           match r with
           | inl err => mret ([], Some err)
           | inr rows =>
             match Keys_rows rows [] with
             | inl err => mret ([], Some err)
             | inr results => mret (results, None)
             end
           end);
        ce ← on_store store_Close;
        mret (keys, multierr_Append er ce)
      end
    end
  end.

(** *** Set *)

Definition Client_Set (k v : string) (fns : gokv.OptionFns)
  : M (option error) :=
  match util.CheckKeyAndValue k v with
  | Some err => mret (Some err)
  | None =>
    option ← on_world (gokv.OptionFns_Apply fns gokv.zeroOption);
    match Marshal (Codec_ cfg) option with
    | inl err => mret (Some err)
    | inr optionData =>
      match template_Parse (SetSQL cfg) with
      | inl err => mret (Some err)
      | inr t =>
        now ← on_store store_Now;
        match template_Execute t
                (list_to_map [("Key", k); ("Value", v);
                              ("Option", optionData);
                              ("Time", time_Format now)]) with
        | inl err => mret (Some err)
        | inr query =>
          oe ← on_store (store_Open (DriverName cfg) (DataSourceName cfg));
          match oe with
          | Some err => mret (Some err)
          | None =>
            er ← (r ← on_store (store_Exec query);
                  match r with
                  | inl err => mret (Some err)
                  | inr _ =>
                    now' ← on_store store_Now;
                    cache_put k (mkCacheValue v option now');;
                    mret None
                  end);
            ce ← on_store store_Close;
            mret (multierr_Append er ce)
          end
        end
      end
    end
  end.

(** *** Get *)

(** What [Get] returns: [(found, v, option, er)]. *)
Definition GetResult : Type := bool * string * gokv.Option * option error.

(** The body of the loop of [Get] once past the row-count test: scan the
    row, keep a non-empty value column, decode a non-empty second column
    into [option].  Either the error it returns with (and [option] as it
    is then), or the new [(v, option)]. *)
Definition Get_row (r : error + Row) (v : string) (option : gokv.Option)
  : (gokv.Option * error) + (string * gokv.Option) :=
  match r with
  | inl err => inl (option, err)
  | inr columns =>
    let v' := if decide (NullString_String columns.1 <> "")
              then NullString_String columns.1 else v in
    match columns.2 with
    | c1 :: _ =>
      if decide (NullString_String c1 <> "")
      then
        match Unmarshal (Codec_ cfg) (NullString_String c1) option with
        | (Some err, option') => inl (option', err)
        | (None, option') => inr (v', option')
        end
      else inr (v', option)
    | [] => inr (v', option)
    end
  end.

(** The loop [for ; rows.Next(); row++] of [Get], from the state
    [(row, v, option)]: either one of its [return]s, or the state at
    the end of the rows. *)
Fixpoint Get_rows (k : string) (rows : Rows)
    (row : nat) (v : string) (option : gokv.Option)
  : GetResult + (nat * string * gokv.Option) :=
  match rows with
  | [] => inr (row, v, option)
  | r :: rows' =>
    if decide (1 <= row)%nat
    then inl (false, "", option, Some (Errorf_w k ErrTooManyValues))
    else
      match Get_row r v option with
      | inl (option', err) => inl (false, "", option', Some err)
      | inr (v', option') => Get_rows k rows' (S row) v' option'
      end
  end.

Definition Client_Get (k : string) (fn : option gokv.GeneratorFn)
  : M GetResult :=
  let v := "" in
  let option := gokv.zeroOption in
  match util.CheckKeyAndValue k v with
  | Some err => mret (false, "", option, Some err)
  | None =>
    hit ← cache_get k;
    match hit with
    | Some cv => mret (true, Value cv, Option cv, None)
    | None =>
      match template_Parse (GetSQL cfg) with
      | inl err => mret (false, "", option, Some err)
      | inr t =>
        match template_Execute t (list_to_map [("Key", k)]) with
        | inl err => mret (false, "", option, Some err)
        | inr query =>
          oe ← on_store (store_Open (DriverName cfg) (DataSourceName cfg));
          match oe with
          | Some err => mret (false, "", option, Some err)
          | None =>
            '(found, v, option, er) ←
              (r ← on_store (store_Query query);
               match r with
               | inl err => mret (false, "", option, Some err)
               | inr rows =>
                 match Get_rows k rows 0 v option with
                 | inl ret => mret ret
                 | inr (row, v, option) =>
                   match row, fn with
                   | O, None => mret (false, v, option, None)
                   | 1%nat, _ =>
                     now ← on_store store_Now;
                     cache_put k (mkCacheValue v option now);;
                     mret (true, v, option, None)
                   (* [fn(k)] on a nil [fn]: only with [row > 1], and the loop never
                      ends so (see [Get_rows_end]) *)
                   | _, None => mret (false, "", option, Some NilFuncPanic)
                   | _, Some fn =>
                     '(v, newOption, err) ← on_world (fn k);
                     match err with
                     | Some err => mret (false, "", option, Some err)
                     | None =>
                       err ← Client_Set k v [gokv.Apply newOption];
                       match err with
                       | Some err => mret (false, "", option, Some err)
                       | None => mret (true, v, newOption, None)
                       end
                     end
                   end
                 end
               end);
            ce ← on_store store_Close;
            mret (found, v, option, multierr_Append er ce)
          end
        end
      end
    end
  end.

(** *** Del *)

Definition Client_Del (k : string) : M (bool * option error) :=
  match util.CheckKey k with
  | Some err => mret (false, Some err)
  | None =>
    match template_Parse (DeleteSQL cfg) with
    | inl err => mret (false, Some err)
    | inr t =>
      now ← on_store store_Now;
      match template_Execute t
              (list_to_map [("Key", k); ("Time", time_Format now)]) with
      | inl err => mret (false, Some err)
      | inr query =>
        oe ← on_store (store_Open (DriverName cfg) (DataSourceName cfg));
        match oe with
        | Some err => mret (false, Some err)
        | None =>
          '(found, er) ←
            (r ← on_store (store_Exec query);
             match r with
             | inl err => mret (false, Some err)
             | inr _ => cache_delete k;; mret (true, None)
             end);
          ce ← on_store store_Close;
          mret (found, multierr_Append er ce)
        end
      end
    end
  end.

(** *** Refresh *)

(** [keysMap[k] = true] for every live key. *)
Definition Refresh_keysMap (keys : list string) : gmap string bool :=
  foldl (fun keysMap k => <[k := true]> keysMap) ∅ keys.

(** The first loop, over the cached keys in the order [range] hands them
    out: a key that is not live is deleted, a live one is appended to
    [cacheKeys]. *)
Fixpoint Refresh_sweep (keysMap : gmap string bool) (ks : list string)
    (cacheKeys : list string) : M (list string) :=
  match ks with
  | [] => mret cacheKeys
  | k :: ks' =>
    if negb (default false (keysMap !! k))
    then cache_delete k;; Refresh_sweep keysMap ks' cacheKeys
    else Refresh_sweep keysMap ks' (cacheKeys ++ [k])
  end.

(** The second loop: delete, then [Get(k, nil)]; the first error ends
    it. *)
Fixpoint Refresh_refetch (cacheKeys : list string) : M (option error) :=
  match cacheKeys with
  | [] => mret None
  | k :: ks =>
    cache_delete k;;
    '(_, _, _, err) ← Client_Get k None;
    match err with
    | Some err => mret (Some err)
    | None => Refresh_refetch ks
    end
  end.

(** Go leaves the order of [for k := range c.Cache] open: [range] is the
    order of this run, a rearrangement of the keys of the map. *)
Definition Client_Refresh (range : list string -> list string)
  : M (option error) :=
  '(keys, err) ← Client_Keys;
  match err with
  | Some err => mret (Some err)
  | None =>
    let keysMap := Refresh_keysMap keys in
    ks ← (fun c => (range (map_to_list (Cache c)).*1, c));
    cacheKeys ← Refresh_sweep keysMap ks [];
    Refresh_refetch cacheKeys
  end.

(** [tickerRefresh], over the ticks that have fired: one [Refresh] per tick,
    its error logged and dropped.  [ranges] holds the map order of each
    cycle. *)
Fixpoint tickerRefresh (ranges : list (list string -> list string))
  : M unit :=
  match ranges with
  | [] => mret tt
  | range :: ranges' =>
    _ ← Client_Refresh range;
    tickerRefresh ranges'
  end.

End WithDriver.

End sqlc.

(** ** store.go and pkg/sqlc, the variant without a cache

    [Option{Expired time.Duration; CreateTime string}], values of any type
    that go through the codec, and a [Client] that is only its
    configuration: every operation goes to the backing store. *)

Module gokv_any.

Record Option : Type := mkOption {
  Option_Expired : Z;
  CreateTime : string;
}.

Definition zeroOption : Option := mkOption 0 "".

#[global] Instance Option_eq_dec : EqDecision Option.
Proof. solve_decision. Defined.

Section WithDriver.
Context {W : Type} `{Driver W}.
Variable V : Type.

Definition OptionFn : Type := Option -> W -> Option * W.
Definition OptionFns : Type := list OptionFn.

(** [func(k string, v interface{}) (Option, error)]: the hook fills the
    value behind [v]. *)
Definition GeneratorFn : Type :=
  string -> V -> W -> (V * Option * option error) * W.

Fixpoint OptionFns_Apply (o : OptionFns) (option : Option) (w : W)
  : Option * W :=
  match o with
  | [] => (option, w)
  | f :: o' => let '(option', w') := f option w in
               OptionFns_Apply o' option' w'
  end.

(** [func Expired(v time.Duration) OptionFn] *)
Definition Expired (v : Z) : OptionFn :=
  fun o w => (mkOption v (CreateTime o), w).

(** [func Apply(v Option) OptionFn] *)
Definition Apply (v : Option) : OptionFn := fun _ w => (v, w).

End WithDriver.

End gokv_any.

Module sqlc_direct.

Record Codec (V : Type) : Type := mkCodec {
  Marshal : V -> error + string;
  Unmarshal : string -> V -> option error * V;
  MarshalOption : gokv_any.Option -> error + string;
  UnmarshalOption : string -> gokv_any.Option -> option error * gokv_any.Option;
}.
Arguments Marshal {V} _ _.
Arguments Unmarshal {V} _ _ _.
Arguments MarshalOption {V} _ _.
Arguments UnmarshalOption {V} _ _ _.

(** [Client] is a [gokv.Store] implementation for SQL databases. *)
Record Client (V : Type) : Type := mkClient {
  DriverName : string;
  DataSourceName : string;
  KeysSQL : string;
  GetSQL : string;
  SetSQL : string;
  DeleteSQL : string;
  Codec_ : Codec V;
}.
Arguments DriverName {V} _.
Arguments DataSourceName {V} _.
Arguments KeysSQL {V} _.
Arguments GetSQL {V} _.
Arguments SetSQL {V} _.
Arguments DeleteSQL {V} _.
Arguments Codec_ {V} _.

Section WithDriver.
Context {W : Type} `{Driver W}.
Context {V : Type}.
Variable c : Client V.

Definition M (A : Type) : Type := Store W -> A * Store W.

#[local] Instance M_ret : MRet M := fun A a s => (a, s).
#[local] Instance M_bind : MBind M :=
  fun A B f m s => let '(a, s') := m s in f a s'.

Definition on_world {A : Type} (f : W -> A * W) : M A :=
  fun s => let '(a, w) := f (world s) in (a, mkStore w (accesses s)).

(** [option := gokv.OptionFns(fns).Apply(&gokv.Option{})] followed by
    [option.CreateTime = time.Now().Format(...)]. *)
Definition Set_option (fns : gokv_any.OptionFns) : M gokv_any.Option :=
  option ← on_world (gokv_any.OptionFns_Apply fns gokv_any.zeroOption);
  now ← store_Now;
  mret (gokv_any.mkOption (gokv_any.Option_Expired option)
                          (time_Format now)).

(** [Set]: [defer db.Close()] drops what [Close] returns. *)
Definition Client_Set (k : string) (v : V) (fns : gokv_any.OptionFns)
  : M (option error) :=
  match util.CheckKeyAndValue k v with
  | Some err => mret (Some err)
  | None =>
    match Marshal (Codec_ c) v with
    | inl err => mret (Some err)
    | inr data =>
      option ← Set_option fns;
      match MarshalOption (Codec_ c) option with
      | inl err => mret (Some err)
      | inr optionData =>
        match template_Parse (SetSQL c) with
        | inl err => mret (Some err)
        | inr t =>
          now ← store_Now;
          match template_Execute t
                  (list_to_map [("Key", k); ("Value", data);
                                ("Option", optionData);
                                ("Time", time_Format now)]) with
          | inl err => mret (Some err)
          | inr query =>
            oe ← store_Open (DriverName c) (DataSourceName c);
            match oe with
            | Some err => mret (Some err)
            | None =>
              r ← store_Exec query;
              store_Close;;
              mret (match r with inl err => Some err | inr _ => None end)
            end
          end
        end
      end
    end
  end.

(** What [Get] returns, [(found, option, err)], and the value behind the
    pointer [v] as [Get] leaves it. *)
Definition GetResult : Type := bool * gokv_any.Option * option error * V.

Definition Get_row (r : error + Row) (v : V) (option : gokv_any.Option)
  : (gokv_any.Option * error * V) + (V * gokv_any.Option) :=
  match r with
  | inl err => inl (option, err, v)
  | inr columns =>
    match (if decide (NullString_String columns.1 <> "")
           then Unmarshal (Codec_ c) (NullString_String columns.1) v
           else (None, v)) with
    | (Some err, v') => inl (option, err, v')
    | (None, v') =>
      match columns.2 with
      | c1 :: _ =>
        if decide (NullString_String c1 <> "")
        then
          match UnmarshalOption (Codec_ c) (NullString_String c1)
                                option with
          | (Some err, option') => inl (option', err, v')
          | (None, option') => inr (v', option')
          end
        else inr (v', option)
      | [] => inr (v', option)
      end
    end
  end.

Fixpoint Get_rows (k : string) (rows : Rows)
    (row : nat) (v : V) (option : gokv_any.Option)
  : GetResult + (nat * V * gokv_any.Option) :=
  match rows with
  | [] => inr (row, v, option)
  | r :: rows' =>
    if decide (1 <= row)%nat
    then inl (false, option, Some (Errorf_w k ErrTooManyValues), v)
    else
      match Get_row r v option with
      | inl (option', err, v') => inl (false, option', Some err, v')
      | inr (v', option') => Get_rows k rows' (S row) v' option'
      end
  end.

(** [Get]: the result of the write-through [c.Set(...)] is dropped. *)
Definition Client_Get (k : string) (v : V)
    (fn : option (gokv_any.GeneratorFn V)) : M GetResult :=
  let option := gokv_any.zeroOption in
  match util.CheckKeyAndValue k v with
  | Some err => mret (false, option, Some err, v)
  | None =>
    match template_Parse (GetSQL c) with
    | inl err => mret (false, option, Some err, v)
    | inr t =>
      match template_Execute t (list_to_map [("Key", k)]) with
      | inl err => mret (false, option, Some err, v)
      | inr query =>
        oe ← store_Open (DriverName c) (DataSourceName c);
        match oe with
        | Some err => mret (false, option, Some err, v)
        | None =>
          ret ←
            (r ← store_Query query;
             match r with
             | inl err => mret (false, option, Some err, v)
             | inr rows =>
               match Get_rows k rows 0 v option with
               | inl ret => mret ret
               | inr (row, v, option) =>
                 match row, fn with
                 | O, None => mret (false, option, None, v)
                 | 1%nat, _ => mret (true, option, None, v)
                 (* [fn(k, v)] on a nil [fn]: only with [row > 1] *)
                 | _, None => mret (false, option, Some NilFuncPanic, v)
                 | _, Some fn =>
                   '(v, newOption, err) ← on_world (fn k v);
                   match err with
                   | Some err => mret (false, option, Some err, v)
                   | None =>
                     Client_Set k v [gokv_any.Apply newOption];;
                     mret (true, newOption, None, v)
                   end
                 end
               end
             end);
          store_Close;;
          mret ret
        end
      end
    end
  end.

(** [Keys]: as in the caching client, but [defer db.Close()] drops what
    [Close] returns. *)
Definition Client_Keys : M (list string * option error) :=
  match template_Parse (KeysSQL c) with
  | inl err => mret ([], Some err)
  | inr t =>
    match template_Execute t ∅ with
    | inl err => mret ([], Some err)
    | inr query =>
      oe ← store_Open (DriverName c) (DataSourceName c);
      match oe with
      | Some err => mret ([], Some err)
      | None =>
        r ← store_Query query;
        store_Close;;
        match r with
        | inl err => mret ([], Some err)
        | inr rows =>
          match sqlc.Keys_rows rows [] with
          | inl err => mret ([], Some err)
          | inr results => mret (results, None)
          end
        end
      end
    end
  end.

(** [Del]: [found] is [rowsAffected > 0]. *)
Definition Client_Del (k : string) : M (bool * option error) :=
  match util.CheckKey k with
  | Some err => mret (false, Some err)
  | None =>
    match template_Parse (DeleteSQL c) with
    | inl err => mret (false, Some err)
    | inr t =>
      match template_Execute t (list_to_map [("Key", k)]) with
      | inl err => mret (false, Some err)
      | inr query =>
        oe ← store_Open (DriverName c) (DataSourceName c);
        match oe with
        | Some err => mret (false, Some err)
        | None =>
          r ← store_Exec query;
          store_Close;;
          match r with
          | inl err => mret (false, Some err)
          | inr result =>
            match RowsAffected result with
            | inl err => mret (false, Some err)
            | inr rowsAffected => mret (bool_decide (0 < rowsAffected), None)
            end
          end
        end
      end
    end
  end.

End WithDriver.

End sqlc_direct.

(** ** pkg/sqlc, the caching client with plain string values

    No codec and no options; [NewClient] fills the configuration with
    defaults; [Get] and [Set] do not check the key; [Del] evicts first and
    only logs what the backing store answers. *)

Module sqlc_plain.

Record Config : Type := mkConfig {
  DriverName : string;
  DataSourceName : string;
  KeysSQL : string;
  GetSQL : string;
  SetSQL : string;
  DeleteSQL : string;
  RefreshInterval : Z;
}.

(** [CacheValue] is a holder for value and option associated with a key. *)
Record CacheValue : Type := mkCacheValue {
  Value : string;
  UpdateTime : Time;
}.

(** [Client]: its [Config], its [cache], and the backing store it talks
    to. *)
Record Client (W : Type) : Type := mkClient {
  Config_ : Config;
  cache : gmap string CacheValue;
  store : Store W;
}.
Arguments mkClient {W} _ _ _.
Arguments Config_ {W} _.
Arguments cache {W} _.
Arguments store {W} _.

(** [time.Second], in nanoseconds. *)
Definition time_Second : Z := 1000000000.

Definition DefaultDuration (s defaultValue : Z) : Z :=
  if decide (s = 0) then defaultValue else s.

Definition Default (s defaultValue : string) : string :=
  if decide (s = "") then defaultValue else s.

(** The configuration as [NewClient] completes it. *)
Definition NewClient_Config (c : Config) : Config :=
  let c := mkConfig (DriverName c) (DataSourceName c) (KeysSQL c) (GetSQL c)
             (SetSQL c) (DeleteSQL c)
             (DefaultDuration (RefreshInterval c) (60 * time_Second)) in
  let c := mkConfig (Default (DriverName c) "mysql") (DataSourceName c)
             (KeysSQL c) (GetSQL c) (SetSQL c) (DeleteSQL c)
             (RefreshInterval c) in
  let c := mkConfig (DriverName c) (DataSourceName c)
             (Default (KeysSQL c) "select k from kv where state = 1")
             (GetSQL c) (SetSQL c) (DeleteSQL c) (RefreshInterval c) in
  let c := mkConfig (DriverName c) (DataSourceName c) (KeysSQL c)
             (Default (GetSQL c)
                "select v from kv where k = '{{.Key}}' and state = 1")
             (SetSQL c) (DeleteSQL c) (RefreshInterval c) in
  let c := mkConfig (DriverName c) (DataSourceName c) (KeysSQL c) (GetSQL c)
             (Default (SetSQL c)
                "update kv set v = '{{.Value}}', updated = '{{.Time}}' where k = '{{.Key}}' and state = 1")
             (DeleteSQL c) (RefreshInterval c) in
  mkConfig (DriverName c) (DataSourceName c) (KeysSQL c) (GetSQL c)
    (SetSQL c)
    (Default (DeleteSQL c)
       "update kv set state = 0, updated = '{{.Time}}' where k = '{{.Key}}' and state = 1")
    (RefreshInterval c).

Section WithDriver.
Context {W : Type} `{Driver W}.

(** [NewClient]: the completed configuration and an empty cache (the
    refresh goroutine it starts is left out). *)
Definition NewClient (c : Config) (s : Store W) : Client W :=
  mkClient (NewClient_Config c) ∅ s.

Definition M (A : Type) : Type := Client W -> A * Client W.

#[local] Instance M_ret : MRet M := fun A a c => (a, c).
#[local] Instance M_bind : MBind M :=
  fun A B f m c => let '(a, c') := m c in f a c'.

Definition on_store {A : Type} (f : Store W -> A * Store W) : M A :=
  fun c => let '(a, s) := f (store c) in
           (a, mkClient (Config_ c) (cache c) s).

Definition config : M Config := fun c => (Config_ c, c).
Definition cache_get (k : string) : M (option CacheValue) :=
  fun c => (cache c !! k, c).
Definition cache_put (k : string) (cv : CacheValue) : M unit :=
  fun c => (tt, mkClient (Config_ c) (<[k := cv]> (cache c)) (store c)).
Definition cache_delete (k : string) : M unit :=
  fun c => (tt, mkClient (Config_ c) (delete k (cache c)) (store c)).

(** [Set]: no check of the key. *)
Definition Client_Set (k v : string) : M (option error) :=
  cfg ← config;
  match template_Parse (SetSQL cfg) with
  | inl err => mret (Some err)
  | inr t =>
    now ← on_store store_Now;
    match template_Execute t
            (list_to_map [("Key", k); ("Value", v);
                          ("Time", time_Format now)]) with
    | inl err => mret (Some err)
    | inr query =>
      oe ← on_store (store_Open (DriverName cfg) (DataSourceName cfg));
      match oe with
      | Some err => mret (Some err)
      | None =>
        er ← (r ← on_store (store_Exec query);
              match r with
              | inl err => mret (Some err)
              | inr _ =>
                now' ← on_store store_Now;
                cache_put k (mkCacheValue v now');;
                mret None
              end);
        ce ← on_store store_Close;
        mret (multierr_Append er ce)
      end
    end
  end.

(** What [Get] returns: [(found, v, er)]. *)
Definition GetResult : Type := bool * string * option error.

(** The loop of [Get]: [v = columns[0].String] on the one row it accepts. *)
Fixpoint Get_rows (k : string) (rows : Rows) (row : nat) (v : string)
  : GetResult + (nat * string) :=
  match rows with
  | [] => inr (row, v)
  | r :: rows' =>
    if decide (1 <= row)%nat
    then inl (false, "", Some (Errorf_w k ErrTooManyValues))
    else
      match r with
      | inl err => inl (false, "", Some err)
      | inr columns => Get_rows k rows' (S row) (NullString_String columns.1)
      end
  end.

(** [Get]: no check of the key. *)
Definition Client_Get (k : string) : M GetResult :=
  cfg ← config;
  hit ← cache_get k;
  match hit with
  | Some cv => mret (true, Value cv, None)
  | None =>
    match template_Parse (GetSQL cfg) with
    | inl err => mret (false, "", Some err)
    | inr t =>
      match template_Execute t (list_to_map [("Key", k)]) with
      | inl err => mret (false, "", Some err)
      | inr query =>
        oe ← on_store (store_Open (DriverName cfg) (DataSourceName cfg));
        match oe with
        | Some err => mret (false, "", Some err)
        | None =>
          '(found, v, er) ←
            (r ← on_store (store_Query query);
             match r with
             | inl err => mret (false, "", Some err)
             | inr rows =>
               match Get_rows k rows 0 "" with
               | inl ret => mret ret
               | inr (row, v) =>
                 if decide (row = 1%nat)
                 then
                   now ← on_store store_Now;
                   cache_put k (mkCacheValue v now);;
                   mret (true, v, None)
                 else mret (false, "", None)
               end
             end);
          ce ← on_store store_Close;
          mret (found, v, multierr_Append er ce)
        end
      end
    end
  end.

(** [del]: the delete statement. *)
Definition Client_del (k : string) : M (option error) :=
  cfg ← config;
  match template_Parse (DeleteSQL cfg) with
  | inl err => mret (Some err)
  | inr t =>
    now ← on_store store_Now;
    match template_Execute t
            (list_to_map [("Key", k); ("Time", time_Format now)]) with
    | inl err => mret (Some err)
    | inr query =>
      oe ← on_store (store_Open (DriverName cfg) (DataSourceName cfg));
      match oe with
      | Some err => mret (Some err)
      | None =>
        er ← (r ← on_store (store_Exec query);
              match r with
              | inl err => mret (Some err)
              | inr _ => mret None
              end);
        ce ← on_store store_Close;
        mret (multierr_Append er ce)
      end
    end
  end.

(** [Del]: the entry is deleted, [nil] is the result, and the deferred
    closure then runs [del] and logs its error. *)
Definition Client_Del (k : string) : M (option error) :=
  cache_delete k;;
  _ ← Client_del k;
  mret None.

End WithDriver.

End sqlc_plain.

(** ** A scripted backing store

    A concrete [Driver] to run the clients on: the world is a clock and the
    replies the database will give, in order.  A call that finds no reply of
    its kind fails.  Templates are rendered by appending the variables to the
    template text. *)

Module scripted.

Inductive Reply : Type :=
| ROpen (e : option error)
| RClose (e : option error)
| RQuery (r : error + Rows)
| RExec (r : error + Result).

Record World : Type := mkWorld {
  clock : Time;
  replies : list Reply;
}.

Definition lost : error := External "no reply".

Definition render (t : string) (vars : gmap string string) : string :=
  t ++ "|" ++ default "" (vars !! "Key")
    ++ "|" ++ default "" (vars !! "Value")
    ++ "|" ++ default "" (vars !! "Option")
    ++ "|" ++ default "" (vars !! "Time").

Definition Format (t : Time) : string := "t" ++ pretty t.

#[global] Instance driver : Driver World := {|
  Template := string;
  template_Parse := fun text =>
    if decide (text = "{{") then inl (External "unclosed action")
    else inr text;
  template_Execute := fun t vars => inr (render t vars);
  time_Now := fun w => (clock w, mkWorld (clock w + 1) (replies w));
  time_Format := Format;
  sql_Open := fun _ _ w =>
    match replies w with
    | ROpen e :: rs => (e, mkWorld (clock w) rs)
    | _ => (Some lost, w)
    end;
  DB_Close := fun w =>
    match replies w with
    | RClose e :: rs => (e, mkWorld (clock w) rs)
    | _ => (Some lost, w)
    end;
  DB_QueryContext := fun _ w =>
    match replies w with
    | RQuery r :: rs => (r, mkWorld (clock w) rs)
    | _ => (inl lost, w)
    end;
  DB_ExecContext := fun _ w =>
    match replies w with
    | RExec r :: rs => (r, mkWorld (clock w) rs)
    | _ => (inl lost, w)
    end;
|}.

(** A codec for the option of the caching client: the expiry in text;
    only the text of the zero option is decoded. *)
Definition codec : sqlc.Codec := {|
  sqlc.Marshal := fun o => inr ("{" ++ pretty (gokv.Option_Expired o) ++ "}");
  sqlc.Unmarshal := fun data o =>
    if decide (data = "{0}") then (None, gokv.zeroOption)
    else (Some (External "invalid character"), o);
|}.

Definition config : sqlc.Config := {|
  sqlc.DriverName := "mysql";
  sqlc.DataSourceName := "user:pass@tcp(localhost:3306)/testdb";
  sqlc.KeysSQL := "keys";
  sqlc.GetSQL := "get";
  sqlc.SetSQL := "set";
  sqlc.DeleteSQL := "del";
  sqlc.Codec_ := codec;
  sqlc.RefreshInterval := 0;
|}.

(** The cache-less client, with string values and a codec that writes
    the creation time of the option. *)
Definition codec_any : sqlc_direct.Codec string := {|
  sqlc_direct.Marshal := fun v => inr v;
  sqlc_direct.Unmarshal := fun data _ => (None, data);
  sqlc_direct.MarshalOption := fun o => inr (gokv_any.CreateTime o);
  sqlc_direct.UnmarshalOption := fun data o =>
    (None, gokv_any.mkOption (gokv_any.Option_Expired o) data);
|}.

Definition client : sqlc_direct.Client string := {|
  sqlc_direct.DriverName := "mysql";
  sqlc_direct.DataSourceName := "user:pass@tcp(localhost:3306)/testdb";
  sqlc_direct.KeysSQL := "keys";
  sqlc_direct.GetSQL := "get";
  sqlc_direct.SetSQL := "set";
  sqlc_direct.DeleteSQL := "del";
  sqlc_direct.Codec_ := codec_any;
|}.

Definition start (t : Time) (rs : list Reply) : Store World :=
  mkStore (mkWorld t rs) [].

(** The statement executes and affects [n] rows. *)
Definition affected (n : Z) : Reply := RExec (inr (mkResult (inr n))).

(** A row of one column, and a row of two. *)
Definition row1 (v : string) : error + Row := inr (Some v, []).
Definition row2 (v o : string) : error + Row := inr (Some v, [Some o]).

Definition busy : error := External "connection busy".

(** A hook that generates a value and an option. *)
Definition generate : gokv.GeneratorFn (W := World) :=
  fun k w => (("generated", gokv.mkOption 5, None), w).

(** Runs used below. *)

(** A fresh client; the store accepts one statement. *)
Definition fresh : sqlc.Client World :=
  sqlc.NewClient (start 10 [ROpen None; affected 1; RClose None]).

(** A fresh client; the store accepts one statement and then fails to
    release the connection. *)
Definition fresh_release_fails : sqlc.Client World :=
  sqlc.NewClient (start 10 [ROpen None; affected 1; RClose (Some busy)]).

(** A client that has ["k"] cached. *)
Definition cached (rs : list Reply) : sqlc.Client World :=
  sqlc.mkClient {[ "k" := sqlc.mkCacheValue "v" gokv.zeroOption 3 ]}
                (start 10 rs).

(** [Set("k", "v")], then [Del("k")] twice: the first delete affects one
    row, the second none. *)
Definition set_del_del : sqlc.Client World :=
  sqlc.NewClient
    (start 10 [ROpen None; affected 1; RClose None;
               ROpen None; affected 1; RClose None;
               ROpen None; affected 0; RClose None]).

(** A read that returns two rows. *)
Definition two_rows (r1 r2 : error + Row) : sqlc.Client World :=
  sqlc.NewClient (start 10 [ROpen None; RQuery (inr [r1; r2]); RClose None]).

(** No row for the key; the write-through goes well; the connection of
    [Get] fails to close. *)
Definition generated_release_fails : sqlc.Client World :=
  sqlc.NewClient
    (start 10 [ROpen None; RQuery (inr []);
               ROpen None; affected 1; RClose None;
               RClose (Some busy)]).

(** The cache holds [A] and [B]; the rest is up to the replies. *)
Definition cache_A_B (rs : list Reply) : sqlc.Client World :=
  sqlc.mkClient
    (<["A" := sqlc.mkCacheValue "oldA" gokv.zeroOption 3]>
       (<["B" := sqlc.mkCacheValue "oldB" gokv.zeroOption 4]> ∅))
    (start 10 rs).

(** The live keys are [A] and [C]; [A] has a new value in the store. *)
Definition live_A_C : sqlc.Client World :=
  cache_A_B [ROpen None; RQuery (inr [row1 "A"; row1 "C"]); RClose None;
             ROpen None; RQuery (inr [row1 "newA"]); RClose None].

(** The live keys are [A] and [B]; the first read of the re-fetch loop
    fails. *)
Definition live_A_B_read_fails : sqlc.Client World :=
  cache_A_B [ROpen None; RQuery (inr [row1 "A"; row1 "B"]); RClose None;
             ROpen None; RQuery (inl busy); RClose None].

(** The order [map_to_list] gives. *)
Definition range_id (l : list string) : list string := l.

(** ["k"] is cached; the delete executes, the release fails. *)
Definition cached_release_fails : sqlc.Client World :=
  cached [ROpen None; affected 1; RClose (Some busy)].

(** The three steps of [set_del_del]. *)
Definition after_set : sqlc.Client World :=
  (sqlc.Client_Set config "k" "v" [] set_del_del).2.
Definition first_del : (bool * option error) * sqlc.Client World :=
  sqlc.Client_Del config "k" after_set.
Definition second_del : (bool * option error) * sqlc.Client World :=
  sqlc.Client_Del config "k" first_del.2.

(** A mutator that sets the creation time. *)
Definition created_2020 : gokv_any.Option :=
  gokv_any.mkOption 0 "2020-01-01 00:00:00.000".

(** More runs. *)

(** A fresh client and one read, answered by [r]. *)
Definition reading (r : error + Rows) : sqlc.Client World :=
  sqlc.NewClient (start 10 [ROpen None; RQuery r; RClose None]).

(** A hook that fails. *)
Definition failing_hook : gokv.GeneratorFn (W := World) :=
  fun k w => (("", gokv.zeroOption, Some busy), w).

(** A fresh client; the statement fails. *)
Definition fresh_write_fails : sqlc.Client World :=
  sqlc.NewClient (start 10 [ROpen None; RExec (inl busy); RClose None]).

(** ["k"] is cached; the delete executes; the read that follows finds no
    row. *)
Definition cached_del_get : sqlc.Client World :=
  cached [ROpen None; affected 1; RClose None;
          ROpen None; RQuery (inr []); RClose None].

(** The cache-less client on a store with the given replies. *)
Definition direct_start (rs : list Reply) : Store World := start 10 rs.

(** A hook of the cache-less client. *)
Definition generate_any : gokv_any.GeneratorFn string (W := World) :=
  fun k v w => (("generated", gokv_any.mkOption 5 "", None), w).

(** The client with plain values, configured by [NewClient] from an empty
    configuration but for the data source. *)
Definition plain_client (cache : gmap string sqlc_plain.CacheValue)
    (rs : list Reply) : sqlc_plain.Client World :=
  sqlc_plain.mkClient
    (sqlc_plain.NewClient_Config
       (sqlc_plain.mkConfig "" "user:pass@tcp(localhost:3306)/testdb"
          "" "" "" "" 0))
    cache (start 10 rs).

(** That client with ["k"] cached. *)
Definition plain_cached (rs : list Reply) : sqlc_plain.Client World :=
  plain_client {[ "k" := sqlc_plain.mkCacheValue "v" 3 ]} rs.

End scripted.

(** * Properties *)

(** Unfolds the plumbing of the state passing, so that a run of an operation
    becomes a cascade of matches on what the collaborators answer. *)
Ltac unfold_M :=
  unfold mbind, mret, sqlc.M_bind, sqlc.M_ret, sqlc.on_world, sqlc.on_store,
    sqlc.cache_get, sqlc.cache_put, sqlc.cache_delete,
    sqlc_direct.M_bind, sqlc_direct.M_ret, sqlc_direct.on_world,
    store_Now, store_Open, store_Close, store_Query, store_Exec in *.

(** Splits a run along every answer it depends on. *)
Ltac run_cases := repeat case_match; simplify_eq/=.

Lemma multierr_Append_None er ce :
  multierr_Append er ce = None -> er = None /\ ce = None.
Proof. destruct er, ce; simpl; intros; split; congruence. Qed.

Lemma multierr_Append_Some e ce : is_Some (multierr_Append (Some e) ce).
Proof. destruct ce; simpl; eauto. Qed.

Lemma multierr_Append_nil_l ce : multierr_Append None ce = ce.
Proof. reflexivity. Qed.

Lemma errors_Is_refl e : errors_Is e e = true.
Proof. destruct e; cbn [errors_Is]; case_decide; congruence. Qed.

(** [errors.Is] sees through [multierr.Append] on the left operand. *)
Lemma errors_Is_Append e ce target :
  errors_Is e target = true ->
  exists e', multierr_Append (Some e) ce = Some e' /\
             errors_Is e' target = true.
Proof.
  intros He. destruct ce as [r|]; simpl.
  - exists (MultiErr e r). split; [done|].
    cbn [errors_Is]. case_decide; [done|]. rewrite He. done.
  - eauto.
Qed.

Ltac use_Append_None :=
  repeat match goal with
         | H : multierr_Append _ _ = None |- _ =>
             apply multierr_Append_None in H; destruct H; simplify_eq/=
         end.

Arguments sqlc.Client_Set : simpl never.
Arguments sqlc.Client_Get : simpl never.
Arguments sqlc.Client_Keys : simpl never.

Section sqlc_properties.
Context {W : Type} `{Driver W}.
Variable cfg : sqlc.Config.

(** ** What each operation may do to the cache *)

(** [Set] either leaves the cache as it was and fails, or has written the
    entry of its key. *)
Lemma Set_cases k v fns c er c' :
  sqlc.Client_Set cfg k v fns c = (er, c') ->
  (is_Some er /\ sqlc.Cache c' = sqlc.Cache c) \/
  (exists option t,
      sqlc.Cache c' = <[k := sqlc.mkCacheValue v option t]> (sqlc.Cache c)).
Proof.
  unfold sqlc.Client_Set. unfold_M. simpl. intros Hset.
  run_cases; eauto using multierr_Append_Some.
  all: left; split; [|done].
  all: match goal with |- is_Some (match ?o with _ => _ end) => destruct o end.
  all: eauto.
Qed.

(** A [Set] that returns nil has written the entry of its key. *)
Lemma Set_nil_cached k v fns c c' :
  sqlc.Client_Set cfg k v fns c = (None, c') ->
  exists option t,
    sqlc.Cache c' = <[k := sqlc.mkCacheValue v option t]> (sqlc.Cache c).
Proof.
  intros Hset. destruct (Set_cases _ _ _ _ _ _ Hset) as [[[e He] _]|Hw];
    [discriminate | exact Hw].
Qed.

(** A cached key is answered from the cache, and nothing else moves. *)
Lemma Get_hit k fn c cv :
  k <> "" ->
  sqlc.Cache c !! k = Some cv ->
  sqlc.Client_Get cfg k fn c
  = ((true, sqlc.Value cv, sqlc.Option cv, None), c).
Proof.
  intros Hk Hc. unfold sqlc.Client_Get, util.CheckKeyAndValue, util.CheckKey.
  case_decide; [done|]. unfold_M. simpl. rewrite Hc. reflexivity.
Qed.

(** [Del] either fails with the cache as it was, or the delete statement
    was executed and the entry of its key is gone. *)
Lemma Del_cases k c found er c' :
  sqlc.Client_Del cfg k c = ((found, er), c') ->
  (found = false /\ is_Some er /\ sqlc.Cache c' = sqlc.Cache c) \/
  (found = true /\ sqlc.Cache c' = delete k (sqlc.Cache c) /\
   exists query,
     accesses (sqlc.store c')
     = (accesses (sqlc.store c)
          ++ [AOpen (sqlc.DriverName cfg) (sqlc.DataSourceName cfg);
              AExec query; AClose])%list).
Proof.
  unfold sqlc.Client_Del. unfold_M. simpl. intros Hdel.
  run_cases;
    first
      [ left; split; [done|]; split; [|done];
        first [ by eauto
              | match goal with
                | |- is_Some (match ?o with _ => _ end) => destruct o; eauto
                end ]
      | right; split; [done|]; split; [done|];
        eexists; rewrite <- !app_assoc; reflexivity ].
Qed.

(** ** The loop of [Get] *)

(** The loop ends without a [return] only on no row, or on one row that
    was read without error. *)
Lemma Get_rows_end k rows v o row v' o' :
  sqlc.Get_rows cfg k rows 0 v o = inr (row, v', o') ->
  (rows = [] /\ row = 0%nat /\ v' = v /\ o' = o) \/
  (exists r, rows = [r] /\ row = 1%nat /\
             sqlc.Get_row cfg r v o = inr (v', o')).
Proof.
  destruct rows as [|r1 [|r2 rest]]; cbn [sqlc.Get_rows]; intros Hrows.
  - left. by simplify_eq.
  - right. exists r1. case_decide; [lia|].
    destruct (sqlc.Get_row cfg r1 v o) as [[? ?]|[? ?]]; by simplify_eq.
  - case_decide; [lia|].
    destruct (sqlc.Get_row cfg r1 v o) as [[? ?]|[? ?]]; [done|].
    case_decide; [done|lia].
Qed.

(** On two rows or more the loop returns: with the error of the first row
    when that row cannot be read, with [ErrTooManyValues] otherwise. *)
Lemma Get_rows_many k r1 r2 rest v o :
  sqlc.Get_rows cfg k (r1 :: r2 :: rest) 0 v o
  = match sqlc.Get_row cfg r1 v o with
    | inl (o', err) => inl (false, "", o', Some err)
    | inr (_, o') => inl (false, "", o', Some (Errorf_w k ErrTooManyValues))
    end.
Proof.
  cbn [sqlc.Get_rows]. case_decide; [lia|].
  destruct (sqlc.Get_row cfg r1 v o) as [[? ?]|[? ?]]; [done|].
  case_decide; [done|lia].
Qed.

(** A [return] from inside the loop reports [found = false] and an
    error. *)
Lemma Get_rows_return k rows :
  forall row v o found v' o' er,
    sqlc.Get_rows cfg k rows row v o = inl (found, v', o', er) ->
    found = false /\ v' = "" /\ is_Some er.
Proof.
  induction rows as [|r rows IH]; intros row v o found v' o' er Hrows;
    cbn [sqlc.Get_rows] in Hrows; [done|].
  case_decide; [by simplify_eq; eauto|].
  destruct (sqlc.Get_row cfg r v o) as [[? ?]|[? ?]];
    [by simplify_eq; eauto|].
  by eapply IH.
Qed.

Arguments sqlc.Get_rows : simpl never.
Arguments sqlc.Get_row : simpl never.

(** ** [Get] and the rest of the cache *)

(** [Get] never touches the entry of another key. *)
Lemma Get_frame k fn c r c' k' :
  sqlc.Client_Get cfg k fn c = (r, c') ->
  k' <> k ->
  sqlc.Cache c' !! k' = sqlc.Cache c !! k'.
Proof.
  unfold sqlc.Client_Get. unfold_M. simpl. intros Hget Hk'.
  run_cases; try done.
  all: try by rewrite lookup_insert_ne.
  all: match goal with
       | Hs : sqlc.Client_Set _ _ _ _ _ = _ |- _ =>
           apply Set_cases in Hs; simpl in Hs;
           destruct Hs as [[_ ->]|(? & ? & ->)]; [done|];
           by rewrite lookup_insert_ne
       end.
Qed.

(** ** Set, then Get *)

(** C1. For a non-empty key [k] and a value [v]: if [Set(k, v)] returns
    nil, the [Get(k)] that follows returns [found = true], the value [v]
    and a nil error, and it is served from the cache: the client, its
    world and the record of the backing-store calls are the same after the
    [Get] as before it. *)
Theorem Set_then_Get_round_trip k v fns fn c c' :
  k <> "" ->
  sqlc.Client_Set cfg k v fns c = (None, c') ->
  exists option,
    sqlc.Client_Get cfg k fn c' = ((true, v, option, None), c').
Proof.
  intros Hk Hset.
  destruct (Set_nil_cached _ _ _ _ _ Hset) as (option & t & Hcache).
  exists option.
  rewrite (Get_hit k fn c' (sqlc.mkCacheValue v option t)); [done|done|].
  rewrite Hcache. apply lookup_insert_eq.
Qed.

(** ** The empty key *)

(** C8. On the empty key each of [Get], [Set] and [Del] fails with
    [ErrEmptyKey], and the client (cache, world, record of backing-store
    calls) is left as it was. *)
Theorem empty_key_rejected v fns fn c :
  sqlc.Client_Get cfg "" fn c
  = ((false, "", gokv.zeroOption, Some ErrEmptyKey), c) /\
  sqlc.Client_Set cfg "" v fns c = (Some ErrEmptyKey, c) /\
  sqlc.Client_Del cfg "" c = ((false, Some ErrEmptyKey), c).
Proof. repeat split. Qed.

(** ** Set and the release of its connection *)

(** C10. A non-nil error from [Set] does not mean that the cache is
    unchanged.  When the write statement executes, [Set] overwrites the
    entry of [k] and only then is the error of the deferred [db.Close()]
    merged into the result: if the release fails with [e], [Set] returns
    [e] and the cache holds the new value. *)
Theorem Set_release_error_after_cache_write
    k v fns c option w1 optionData t now w2 query w3 result w4 now' w5 e w6 :
  k <> "" ->
  gokv.OptionFns_Apply fns gokv.zeroOption (world (sqlc.store c))
  = (option, w1) ->
  sqlc.Marshal (sqlc.Codec_ cfg) option = inr optionData ->
  template_Parse (sqlc.SetSQL cfg) = inr t ->
  time_Now w1 = (now, w2) ->
  template_Execute t
    (list_to_map [("Key", k); ("Value", v); ("Option", optionData);
                  ("Time", time_Format now)]) = inr query ->
  sql_Open (sqlc.DriverName cfg) (sqlc.DataSourceName cfg) w2 = (None, w3) ->
  DB_ExecContext query w3 = (inr result, w4) ->
  time_Now w4 = (now', w5) ->
  DB_Close w5 = (Some e, w6) ->
  exists c',
    sqlc.Client_Set cfg k v fns c = (Some e, c') /\
    sqlc.Cache c' !! k = Some (sqlc.mkCacheValue v option now') /\
    sqlc.Cache c' = <[k := sqlc.mkCacheValue v option now']> (sqlc.Cache c).
Proof.
  intros Hk Hfns Hm Hp Hnow Hx Hopen Hexec Hnow' Hclose.
  unfold sqlc.Client_Set, util.CheckKeyAndValue, util.CheckKey.
  case_decide; [done|]. unfold_M. simpl in *.
  repeat (first [ rewrite Hfns | rewrite Hm | rewrite Hp | rewrite Hnow
                | rewrite Hx | rewrite Hopen | rewrite Hexec
                | rewrite Hnow' | rewrite Hclose ]; simpl).
  eexists. split; [reflexivity|]. cbn [sqlc.Cache].
  split; [apply lookup_insert_eq | reflexivity].
Qed.

(** ** Del *)

(** C7, as amended.  [Del] mutates the cache only after the delete
    statement has been executed by the backing store.  Whenever [Del(k)]
    returns [found = false] (every failure up to and including the
    statement) the error is non-nil and the whole cache is unchanged.  The
    entry of [k] is evicted only when the statement has executed without
    error: [Del] returns [found = true] exactly on the runs where the
    connection was opened and the backing store executed the statement;
    only [k] is evicted then, the other entries are unchanged, and the
    error returned with [found = true] is what releasing the connection
    returned, so a non-nil one is reported after the eviction.  When the
    statement fails, [Del] returns [found = false] with that error and the
    cache as it was. *)
Theorem Del_evicts_only_after_exec k c found er c' :
  sqlc.Client_Del cfg k c = ((found, er), c') ->
  (found = false -> is_Some er /\ sqlc.Cache c' = sqlc.Cache c) /\
  (found = true ->
     exists t now w1 query w2 result w3 w4,
       k <> "" /\
       template_Parse (sqlc.DeleteSQL cfg) = inr t /\
       time_Now (world (sqlc.store c)) = (now, w1) /\
       template_Execute t
         (list_to_map [("Key", k); ("Time", time_Format now)]) = inr query /\
       sql_Open (sqlc.DriverName cfg) (sqlc.DataSourceName cfg) w1
       = (None, w2) /\
       DB_ExecContext query w2 = (inr result, w3) /\
       DB_Close w3 = (er, w4) /\
       c' = sqlc.mkClient
              (delete k (sqlc.Cache c))
              (mkStore w4
                 (accesses (sqlc.store c)
                    ++ [AOpen (sqlc.DriverName cfg) (sqlc.DataSourceName cfg);
                        AExec query; AClose])%list)) /\
  (forall t now w1 query w2 e w3 ce w4,
      k <> "" ->
      template_Parse (sqlc.DeleteSQL cfg) = inr t ->
      time_Now (world (sqlc.store c)) = (now, w1) ->
      template_Execute t
        (list_to_map [("Key", k); ("Time", time_Format now)]) = inr query ->
      sql_Open (sqlc.DriverName cfg) (sqlc.DataSourceName cfg) w1
      = (None, w2) ->
      DB_ExecContext query w2 = (inl e, w3) ->
      DB_Close w3 = (ce, w4) ->
      found = false /\ er = multierr_Append (Some e) ce /\
      sqlc.Cache c' = sqlc.Cache c) /\
  (sqlc.Cache c' <> sqlc.Cache c -> found = true).
Proof.
  intros Hdel. split; [|split; [|split]].
  - intros ->.
    destruct (Del_cases _ _ _ _ _ Hdel) as [(_ & He & Hc)|(? & _)]; done.
  - intros ->. revert Hdel.
    unfold sqlc.Client_Del, util.CheckKey. case_decide as Hk.
    { unfold_M. intros; simplify_eq. }
    unfold_M. simpl. intros Hdel. run_cases.
    eexists _, _, _, _, _, _, _, _.
    repeat (split; [done|]). by rewrite <- !app_assoc.
  - intros t now w1 query w2 e w3 ce w4 Hk Hp Hnow Hx Hopen Hexec Hclose.
    revert Hdel. unfold sqlc.Client_Del, util.CheckKey.
    case_decide; [done|]. unfold_M. simpl in *.
    repeat (first [ rewrite Hp | rewrite Hnow | rewrite Hx | rewrite Hopen
                  | rewrite Hexec | rewrite Hclose ]; simpl).
    intros Hdel. by simplify_eq.
  - intros Hne.
    destruct (Del_cases _ _ _ _ _ Hdel) as [(_ & _ & Hc)|(-> & _)]; [|done].
    by rewrite Hc in Hne.
Qed.

(** A [Del] that returns a nil error reports [found = true], whatever
    number of rows the statement affected. *)
Lemma Del_nil_found k c found c' :
  sqlc.Client_Del cfg k c = ((found, None), c') -> found = true.
Proof.
  intros Hdel.
  destruct (Del_cases _ _ _ _ _ Hdel) as [(_ & [e He] & _)|(-> & _)];
    [discriminate | done].
Qed.

(** ** Get on a key with several rows *)

(** C3, as amended.  For a non-empty key that is not cached and whose read
    returns two rows or more, [Get] returns [found = false] with a non-nil
    error and leaves the cache unmodified.  The error wraps
    [ErrTooManyValues] when the first row is read without error (it scans,
    and its second column, if any and not empty, decodes); when the first
    row cannot be read the error is the one of that row. *)
Theorem Get_too_many_rows k fn c t query w1 r1 r2 rest w2 :
  k <> "" ->
  sqlc.Cache c !! k = None ->
  template_Parse (sqlc.GetSQL cfg) = inr t ->
  template_Execute t (list_to_map [("Key", k)]) = inr query ->
  sql_Open (sqlc.DriverName cfg) (sqlc.DataSourceName cfg)
           (world (sqlc.store c)) = (None, w1) ->
  DB_QueryContext query w1 = (inr (r1 :: r2 :: rest), w2) ->
  exists option e c',
    sqlc.Client_Get cfg k fn c = ((false, "", option, Some e), c') /\
    sqlc.Cache c' = sqlc.Cache c /\
    (forall v1 o1,
        sqlc.Get_row cfg r1 "" gokv.zeroOption = inr (v1, o1) ->
        errors_Is e ErrTooManyValues = true) /\
    (forall o1 e1,
        sqlc.Get_row cfg r1 "" gokv.zeroOption = inl (o1, e1) ->
        errors_Is e e1 = true).
Proof.
  intros Hk Hmiss Hp Hx Hopen Hquery.
  unfold sqlc.Client_Get, util.CheckKeyAndValue, util.CheckKey.
  case_decide; [done|]. unfold_M. simpl in *.
  repeat (first [ rewrite Hmiss | rewrite Hp | rewrite Hx | rewrite Hopen
                | rewrite Hquery ]; simpl).
  rewrite Get_rows_many.
  destruct (sqlc.Get_row cfg r1 "" gokv.zeroOption)
    as [[o1 e1]|[v1 o1]] eqn:Hrow; simpl;
    destruct (DB_Close w2) as [ce w3]; simpl.
  - destruct (errors_Is_Append e1 ce e1 (errors_Is_refl e1))
      as (e' & He' & His).
    simpl in He'. rewrite He'.
    eexists _, _, _. split; [reflexivity|]. split; [done|].
    split; [done|]. intros ? ? ?. by simplify_eq.
  - destruct (errors_Is_Append (Errorf_w k ErrTooManyValues) ce
                ErrTooManyValues) as (e' & He' & His).
    { reflexivity. }
    simpl in He'. rewrite He'.
    eexists _, _, _. split; [reflexivity|]. split; [done|].
    split; [done|]. intros ? ? ?. by simplify_eq.
Qed.

(** ** Get with a generator hook *)

(** C6, as amended.  For a non-empty key found neither in the cache nor in
    the backing store (no row), with a hook that returns [(v, opt, nil)]:
    [Get] persists the generated value through [Set(k, v, Apply(opt))] and
    then releases its own connection.  If [Set] returns nil, [Get] returns
    [(true, v, opt, er)], with [er] what the release of the connection of
    [Get] returned (nil when it succeeds).  If [Set] returns an error,
    [Get] returns [found = false] and that error, merged with the one of
    the release: it is not swallowed. *)
Theorem Get_generates_and_writes_through k fn c t query w1 w2 v opt w3 :
  k <> "" ->
  sqlc.Cache c !! k = None ->
  template_Parse (sqlc.GetSQL cfg) = inr t ->
  template_Execute t (list_to_map [("Key", k)]) = inr query ->
  sql_Open (sqlc.DriverName cfg) (sqlc.DataSourceName cfg)
           (world (sqlc.store c)) = (None, w1) ->
  DB_QueryContext query w1 = (inr [], w2) ->
  fn k w2 = ((v, opt, None), w3) ->
  exists err c2 ce s3,
    sqlc.Client_Set cfg k v [gokv.Apply opt]
      (sqlc.mkClient (sqlc.Cache c)
         (mkStore w3
            (accesses (sqlc.store c)
               ++ [AOpen (sqlc.DriverName cfg) (sqlc.DataSourceName cfg);
                   AQuery query])%list))
    = (err, c2) /\
    store_Close (sqlc.store c2) = (ce, s3) /\
    sqlc.Client_Get cfg k (Some fn) c
    = (match err with
       | None => (true, v, opt, ce)
       | Some e => (false, "", gokv.zeroOption, multierr_Append (Some e) ce)
       end, sqlc.mkClient (sqlc.Cache c2) s3) /\
    (forall e, err = Some e ->
       exists e', multierr_Append (Some e) ce = Some e' /\
                  errors_Is e' e = true).
Proof.
  intros Hk Hmiss Hp Hx Hopen Hquery Hfn.
  unfold sqlc.Client_Get, util.CheckKeyAndValue, util.CheckKey.
  case_decide; [done|]. unfold_M. simpl in *.
  repeat (first [ rewrite Hmiss | rewrite Hp | rewrite Hx | rewrite Hopen
                | rewrite Hquery | rewrite Hfn ]; simpl).
  rewrite <- app_assoc. simpl.
  match goal with
  | |- context [sqlc.Client_Set cfg k v ?fs ?st] =>
      destruct (sqlc.Client_Set cfg k v fs st) as [err c2] eqn:Hset
  end.
  destruct (DB_Close (world (sqlc.store c2))) as [ce w4] eqn:Hclose.
  exists err, c2, ce, (mkStore w4 (accesses (sqlc.store c2) ++ [AClose])).
  split; [done|]. split; [by rewrite Hclose|].
  split.
  - destruct err as [e|]; simpl; rewrite Hclose; reflexivity.
  - intros e ->. apply errors_Is_Append, errors_Is_refl.
Qed.

(** ** Keys and the loops of Refresh *)

(** [Keys] never touches the cache. *)
Lemma Keys_cache c r c' :
  sqlc.Client_Keys cfg c = (r, c') -> sqlc.Cache c' = sqlc.Cache c.
Proof.
  unfold sqlc.Client_Keys. unfold_M. simpl. intros Hkeys.
  run_cases; done.
Qed.

Lemma Refresh_keysMap_fold keys k : forall m : gmap string bool,
  default false (foldl (fun keysMap k => <[k := true]> keysMap) m keys !! k)
  = true
  <-> default false (m !! k) = true \/ k ∈ keys.
Proof.
  induction keys as [|a keys IH]; intros m; simpl.
  - split; [by left | intros [?|Hin]; [done | by inversion Hin]].
  - rewrite IH. destruct (decide (a = k)) as [->|Hne].
    + rewrite lookup_insert_eq. simpl. split; [intros _|by left].
      right. by left.
    + rewrite lookup_insert_ne by done. split.
      * intros [?|?]; [by left | right; by right].
      * intros [?|Hin]; [by left|]. right.
        inversion Hin; by simplify_eq.
Qed.

(** [keysMap[k]] holds exactly for the live keys. *)
Lemma Refresh_keysMap_lookup keys k :
  default false (sqlc.Refresh_keysMap keys !! k) = true <-> k ∈ keys.
Proof.
  unfold sqlc.Refresh_keysMap. rewrite Refresh_keysMap_fold.
  rewrite lookup_empty. simpl. split; [|by right].
  intros [Hf|Hk]; [discriminate | exact Hk].
Qed.

(** The first loop keeps the store, collects the live keys in the order it
    met them, and deletes the others. *)
Lemma Refresh_sweep_spec (keysMap : gmap string bool) ks :
  forall acc (c : sqlc.Client W) cacheKeys c',
    sqlc.Refresh_sweep keysMap ks acc c = (cacheKeys, c') ->
    sqlc.store c' = sqlc.store c /\
    cacheKeys
    = (acc ++ filter (fun k => default false (keysMap !! k) = true) ks)%list
    /\
    forall k,
      sqlc.Cache c' !! k
      = if decide (k ∈ ks /\ default false (keysMap !! k) <> true)
        then None else sqlc.Cache c !! k.
Proof.
  induction ks as [|a ks IH]; intros acc c cacheKeys c' Hsweep.
  - simpl in Hsweep. unfold_M. simplify_eq.
    split; [done|]. split; [by rewrite filter_nil, app_nil_r|].
    intros k. case_decide as Hk; [|done].
    destruct Hk as [Hin _]. by inversion Hin.
  - cbn [sqlc.Refresh_sweep] in Hsweep.
    destruct (default false (keysMap !! a)) eqn:Hlive; simpl in Hsweep.
    + apply IH in Hsweep as (Hs & Hk & Hc).
      split; [done|]. split.
      * rewrite filter_cons_True by done.
        by rewrite Hk, <- app_assoc.
      * intros k. rewrite Hc.
        repeat case_decide; try done; exfalso;
          (repeat match goal with
                  | Hm : context [_ ∈ _ :: _] |- _ =>
                      rewrite elem_of_cons in Hm
                  end);
          intuition congruence.
    + unfold_M. simpl in Hsweep.
      apply IH in Hsweep as (Hs & Hk & Hc). simpl in *.
      split; [done|]. split.
      * rewrite filter_cons_False by congruence. done.
      * intros k. rewrite Hc.
        destruct (decide (k = a)) as [->|Hne];
          [rewrite ?lookup_delete_eq | rewrite ?lookup_delete_ne by done];
          repeat case_decide; try done; exfalso;
          (repeat match goal with
                  | Hm : context [_ ∈ _ :: _] |- _ =>
                      rewrite elem_of_cons in Hm
                  end);
          intuition congruence.
Qed.

(** When the second loop stops on an error, it stops at one key: the keys
    before it were processed, the [Get] of that key returned the error,
    and no entry outside the processed keys and that key was touched. *)
Lemma Refresh_refetch_error ks :
  forall c e c',
    sqlc.Refresh_refetch cfg ks c = (Some e, c') ->
    exists ks1 k ks2 c1 found v o,
      ks = (ks1 ++ k :: ks2)%list /\
      sqlc.Client_Get cfg k None c1 = ((found, v, o, Some e), c') /\
      (forall k', k' ∉ ks1 -> k' <> k ->
                  sqlc.Cache c' !! k' = sqlc.Cache c !! k').
Proof.
  induction ks as [|k ks IH]; intros c e c' Hre.
  - simpl in Hre. unfold_M. by simplify_eq.
  - cbn [sqlc.Refresh_refetch] in Hre. unfold_M. simpl in Hre.
    destruct (sqlc.Client_Get cfg k None
                (sqlc.mkClient (delete k (sqlc.Cache c)) (sqlc.store c)))
      as [[[[found v] o] [err|]] c1] eqn:Hget.
    + simplify_eq. exists [], k, ks. eexists _, found, v, o.
      split; [done|]. split; [exact Hget|].
      intros k' _ Hne.
      rewrite (Get_frame _ _ _ _ _ k' Hget Hne). simpl.
      by rewrite lookup_delete_ne.
    + apply IH in Hre
        as (ks1 & k2 & ks2 & c2 & found2 & v2 & o2 & -> & Hget2 & Hframe).
      exists (k :: ks1), k2, ks2, c2, found2, v2, o2.
      split; [done|]. split; [done|].
      intros k' Hnin Hne.
      rewrite Hframe; [|intros ?; apply Hnin; by right | done].
      assert (k' <> k) as Hk' by (intros ->; apply Hnin; by left).
      rewrite (Get_frame _ _ _ _ _ k' Hget Hk'). simpl.
      by rewrite lookup_delete_ne.
Qed.

(** However the second loop ends, it touches only entries of the keys
    it was given. *)
Lemma Refresh_refetch_frame ks :
  forall c r c' k',
    sqlc.Refresh_refetch cfg ks c = (r, c') ->
    k' ∉ ks ->
    sqlc.Cache c' !! k' = sqlc.Cache c !! k'.
Proof.
  induction ks as [|k ks IH]; intros c r c' k' Hre Hk'.
  - simpl in Hre. unfold_M. by simplify_eq.
  - cbn [sqlc.Refresh_refetch] in Hre. unfold_M. simpl in Hre.
    apply not_elem_of_cons in Hk' as [Hne Hk'].
    destruct (sqlc.Client_Get cfg k None
                (sqlc.mkClient (delete k (sqlc.Cache c)) (sqlc.store c)))
      as [[[[found v] o] [err|]] c1] eqn:Hget.
    + simplify_eq. rewrite (Get_frame _ _ _ _ _ k' Hget Hne). simpl.
      by rewrite lookup_delete_ne.
    + rewrite (IH _ _ _ _ Hre Hk'), (Get_frame _ _ _ _ _ k' Hget Hne).
      simpl. by rewrite lookup_delete_ne.
Qed.

(** The keys [range] hands out are the cached keys, each once. *)
Lemma range_keys (range : list string -> list string)
    (m : gmap string sqlc.CacheValue) :
  (forall l, range l ≡ₚ l) ->
  NoDup (range (map_to_list m).*1) /\
  forall k, k ∈ range (map_to_list m).*1 <-> is_Some (m !! k).
Proof.
  intros Hperm. split.
  - rewrite Hperm. apply NoDup_fst_map_to_list.
  - intros k. rewrite Hperm. rewrite list_elem_of_fmap. split.
    + intros ([k0 cv] & -> & Hin). apply elem_of_map_to_list in Hin. eauto.
    + intros [cv Hcv]. exists (k, cv). split; [done|].
      by apply elem_of_map_to_list.
Qed.

(** The first loop, in one piece: [cacheKeys] are the cached keys that are
    live, in the order of [range]; the cache keeps the entries of the live
    keys and no other; the store is not touched. *)
Lemma Refresh_sweep_filter (range : list string -> list string) live
    (c : sqlc.Client W) :
  (forall l, range l ≡ₚ l) ->
  sqlc.Refresh_sweep (sqlc.Refresh_keysMap live)
    (range (map_to_list (sqlc.Cache c)).*1) [] c
  = (filter (fun k => k ∈ live) (range (map_to_list (sqlc.Cache c)).*1),
     sqlc.mkClient
       (filter (fun kv : string * sqlc.CacheValue => kv.1 ∈ live)
               (sqlc.Cache c))
       (sqlc.store c)).
Proof.
  intros Hperm.
  destruct (sqlc.Refresh_sweep (sqlc.Refresh_keysMap live)
              (range (map_to_list (sqlc.Cache c)).*1) [] c)
    as [cacheKeys c1] eqn:Hsweep.
  apply Refresh_sweep_spec in Hsweep as (Hs & Hck & Hc).
  simpl in Hck.
  rewrite (list_filter_iff _ (fun k => k ∈ live)) in Hck
    by (intros k; apply Refresh_keysMap_lookup).
  destruct (range_keys range (sqlc.Cache c) Hperm) as [_ Hin].
  f_equal; [done|]. destruct c1 as [m1 s1]. simpl in *. f_equal; [|done].
  apply map_eq. intros k. rewrite Hc, map_lookup_filter.
  destruct (sqlc.Cache c !! k) as [cv|] eqn:Hcv; simpl.
  - case_decide as Hd.
    + rewrite option_guard_False; [done|].
      destruct Hd as [_ Hd]. intros Hl. apply Hd.
      by apply Refresh_keysMap_lookup.
    + rewrite option_guard_True; [done|]. simpl.
      destruct (decide (k ∈ live)) as [Hl|Hl]; [done|].
      exfalso. apply Hd. split; [apply Hin; eauto|].
      by rewrite Refresh_keysMap_lookup.
  - by case_decide.
Qed.

(** The second loop on [ks1 ++ ks]: the loop on [ks1], and when that ends
    without error the loop on [ks] from where it ended. *)
Lemma Refresh_refetch_app ks1 ks :
  forall c : sqlc.Client W,
    sqlc.Refresh_refetch cfg (ks1 ++ ks) c
    = match sqlc.Refresh_refetch cfg ks1 c with
      | (Some e, c2) => (Some e, c2)
      | (None, c2) => sqlc.Refresh_refetch cfg ks c2
      end.
Proof.
  induction ks1 as [|k ks1 IH]; intros c; [done|].
  cbn [app sqlc.Refresh_refetch]. unfold_M. simpl.
  destruct (sqlc.Client_Get cfg k None
              (sqlc.mkClient (delete k (sqlc.Cache c)) (sqlc.store c)))
    as [[[[found v] o] [err|]] c1]; [done | apply IH].
Qed.

(** A [Get] without hook on a key that is not cached, when it returns a
    nil error: the connection was opened, the read of the key returned no
    row and the client is as it was but for the store, or it returned one
    row and the client has cached what that row decodes to, stamped with
    the time read after the rows. *)
Lemma Get_nil_miss_exact k (c : sqlc.Client W) found v o c' :
  sqlc.Cache c !! k = None ->
  sqlc.Client_Get cfg k None c = ((found, v, o, None), c') ->
  exists t q w1 rows w2,
    k <> "" /\
    template_Parse (sqlc.GetSQL cfg) = inr t /\
    template_Execute t (list_to_map [("Key", k)]) = inr q /\
    sql_Open (sqlc.DriverName cfg) (sqlc.DataSourceName cfg)
      (world (sqlc.store c)) = (None, w1) /\
    DB_QueryContext q w1 = (inr rows, w2) /\
    ((rows = [] /\ found = false /\ sqlc.Cache c' = sqlc.Cache c) \/
     (exists r now w3,
         rows = [r] /\ found = true /\
         sqlc.Get_row cfg r "" gokv.zeroOption = inr (v, o) /\
         time_Now w2 = (now, w3) /\
         sqlc.Cache c' = <[k := sqlc.mkCacheValue v o now]> (sqlc.Cache c))).
Proof.
  intros Hmiss.
  unfold sqlc.Client_Get, util.CheckKeyAndValue, util.CheckKey.
  case_decide as Hk.
  { intros Hget. unfold_M. simplify_eq. }
  unfold_M. simpl. rewrite Hmiss. intros Hget. run_cases.
  all: try (match goal with
            | Hm : match ?o with _ => _ end = None |- _ =>
                destruct o; discriminate
            end).
  all: try (match goal with
            | Hr : sqlc.Get_rows _ _ _ _ _ _ = inl _,
              Her : multierr_Append _ _ = None |- _ =>
                apply Get_rows_return in Hr as (_ & _ & [? ->]);
                by apply multierr_Append_None in Her as [? _]
            end).
  all: match goal with
       | Hr : sqlc.Get_rows _ _ _ _ _ _ = inr _ |- _ =>
           apply Get_rows_end in Hr
             as [(-> & ? & ? & ?)|(r1 & -> & ? & Hrow)]; simplify_eq
       end.
  - eexists _, _, _, _, _. repeat (split; [done|]). by left.
  - eexists _, _, _, _, _. repeat (split; [done|]). right.
    eexists _, _, _. repeat (split; [done|]). done.
Qed.

(** ** Refresh stopped by an error *)

(** C5, as amended.  [Keys] returned the live keys; the re-fetch loop has
    gone through the live cached keys [ks1] without error and is at the
    key [k], with [ks2] still to be processed; it evicts [k] and calls
    [Get(k, nil)].  When that [Get] returns an error, [Refresh] returns
    that error and ends where the [Get] ended (the remainder of the cycle
    is aborted: no further call reaches the backing store), and every key
    that was still to be processed keeps its previous cache entry: it is
    neither evicted nor re-fetched.  In particular, when the read of [k]
    fails in the backing store with [e], [Refresh] returns [e] (merged
    with what releasing the connection returned), [k] is left evicted,
    the calls of that one read are the last ones made, and the keys still
    to be processed keep their entries. *)
Theorem Refresh_abort_keeps_remaining_entries
    range c live c0 ks1 k ks2 c2 :
  (forall l, range l ≡ₚ l) ->
  sqlc.Client_Keys cfg c = ((live, None), c0) ->
  filter (fun k => k ∈ live) (range (map_to_list (sqlc.Cache c)).*1)
  = (ks1 ++ k :: ks2)%list ->
  sqlc.Refresh_refetch cfg ks1
    (sqlc.mkClient
       (filter (fun kv : string * sqlc.CacheValue => kv.1 ∈ live)
               (sqlc.Cache c))
       (sqlc.store c0))
  = (None, c2) ->
  (forall found v o e c3,
      sqlc.Client_Get cfg k None
        (sqlc.mkClient (delete k (sqlc.Cache c2)) (sqlc.store c2))
      = ((found, v, o, Some e), c3) ->
      sqlc.Client_Refresh cfg range c = (Some e, c3) /\
      forall k', k' ∈ ks2 ->
                 is_Some (sqlc.Cache c !! k') /\
                 sqlc.Cache c3 !! k' = sqlc.Cache c !! k') /\
  (forall t q w1 e w2 ce w3,
      k <> "" ->
      template_Parse (sqlc.GetSQL cfg) = inr t ->
      template_Execute t (list_to_map [("Key", k)]) = inr q ->
      sql_Open (sqlc.DriverName cfg) (sqlc.DataSourceName cfg)
        (world (sqlc.store c2)) = (None, w1) ->
      DB_QueryContext q w1 = (inl e, w2) ->
      DB_Close w2 = (ce, w3) ->
      exists e' c3,
        multierr_Append (Some e) ce = Some e' /\
        errors_Is e' e = true /\
        sqlc.Client_Refresh cfg range c = (Some e', c3) /\
        sqlc.store c3
        = mkStore w3
            (accesses (sqlc.store c2)
               ++ [AOpen (sqlc.DriverName cfg) (sqlc.DataSourceName cfg);
                   AQuery q; AClose])%list /\
        sqlc.Cache c3 !! k = None /\
        forall k', k' ∈ ks2 ->
                   is_Some (sqlc.Cache c !! k') /\
                   sqlc.Cache c3 !! k' = sqlc.Cache c !! k').
Proof.
  intros Hperm Hkeys Hsplit Hks1.
  assert (forall found v o e c3,
             sqlc.Client_Get cfg k None
               (sqlc.mkClient (delete k (sqlc.Cache c2)) (sqlc.store c2))
             = ((found, v, o, Some e), c3) ->
             sqlc.Client_Refresh cfg range c = (Some e, c3) /\
             forall k', k' ∈ ks2 ->
                        is_Some (sqlc.Cache c !! k') /\
                        sqlc.Cache c3 !! k' = sqlc.Cache c !! k') as Hstop.
  { intros found v o e c3 Hget.
    pose proof (Keys_cache _ _ _ Hkeys) as Hc0.
    destruct (range_keys range (sqlc.Cache c) Hperm) as [Hnd Hin].
    split.
    - unfold sqlc.Client_Refresh. unfold_M. rewrite Hkeys. simpl.
      rewrite (Refresh_sweep_filter range live c0 Hperm), Hc0, Hsplit.
      rewrite Refresh_refetch_app, Hks1.
      cbn [sqlc.Refresh_refetch]. unfold_M. simpl. by rewrite Hget.
    - intros k' Hk'.
      assert (NoDup (ks1 ++ k :: ks2)%list) as Hnd'
          by (rewrite <- Hsplit; by apply NoDup_filter).
      apply NoDup_app in Hnd' as (_ & Hdisj & Hnd2).
      apply NoDup_cons in Hnd2 as [Hk2 _].
      assert (k' ∈ filter (fun k => k ∈ live)
                     (range (map_to_list (sqlc.Cache c)).*1)) as Hmem.
      { rewrite Hsplit. apply elem_of_app. right. by right. }
      apply list_elem_of_filter in Hmem as [Hlive Hrange].
      apply Hin in Hrange. split; [done|].
      assert (k' <> k) as Hne by (intros ->; done).
      rewrite (Get_frame _ _ _ _ _ k' Hget Hne). simpl.
      rewrite lookup_delete_ne by done.
      rewrite (Refresh_refetch_frame _ _ _ _ k' Hks1); simpl.
      + destruct Hrange as [cv Hcv]. rewrite Hcv.
        by apply map_lookup_filter_Some.
      + intros Hin1. apply (Hdisj _ Hin1). by right. }
  split; [exact Hstop|].
  intros t q w1 e w2 ce w3 Hk Hp Hx Hopen Hquery Hclose.
  destruct (errors_Is_Append e ce e (errors_Is_refl e)) as (e' & He' & His).
  assert (sqlc.Client_Get cfg k None
            (sqlc.mkClient (delete k (sqlc.Cache c2)) (sqlc.store c2))
          = ((false, "", gokv.zeroOption, Some e'),
             sqlc.mkClient
               (delete k (sqlc.Cache c2))
               (mkStore w3
                  (accesses (sqlc.store c2)
                     ++ [AOpen (sqlc.DriverName cfg)
                           (sqlc.DataSourceName cfg);
                         AQuery q; AClose])%list))) as Hget.
  { unfold sqlc.Client_Get, util.CheckKeyAndValue, util.CheckKey.
    case_decide; [done|]. unfold_M. simpl in *.
    rewrite lookup_delete_eq.
    repeat (first [ rewrite Hp | rewrite Hx | rewrite Hopen
                  | rewrite Hquery | rewrite Hclose ]; simpl).
    rewrite <- !app_assoc. simpl. by rewrite <- He'. }
  destruct (Hstop _ _ _ _ _ Hget) as [Hre Hrest].
  eexists e', _. split; [done|]. split; [done|]. split; [exact Hre|].
  split; [done|]. split; [apply lookup_delete_eq | exact Hrest].
Qed.

End sqlc_properties.

(** ** One cycle of Refresh *)

Ltac clock_fact laws Hx :=
  first [ pose proof (clock_Now _ laws _ _ _ Hx)
        | pose proof (clock_Open _ laws _ _ _ _ _ Hx)
        | pose proof (clock_Close _ laws _ _ _ Hx)
        | pose proof (clock_Query _ laws _ _ _ _ Hx)
        | pose proof (clock_Exec _ laws _ _ _ _ Hx) ].

(** Collects what the laws say of every call of the run at hand. *)
Ltac clock_facts laws :=
  repeat match goal with
         | Hx : _ = (_, _) |- _ => clock_fact laws Hx; revert Hx
         end;
  intros.

Section refresh_convergence.
Context {W : Type} `{Driver W}.
Variable cfg : sqlc.Config.
Variable clock : W -> Time.
Hypothesis laws : ClockLaws clock.

Arguments sqlc.Get_rows : simpl never.
Arguments sqlc.Get_row : simpl never.

Local Abbreviation now_of c := (clock (world (sqlc.store c))).

(** [Keys] does not set the clock back. *)
Lemma Keys_clock c r c' :
  sqlc.Client_Keys cfg c = (r, c') -> now_of c <= now_of c'.
Proof.
  unfold sqlc.Client_Keys. unfold_M. simpl. intros Hkeys.
  run_cases; clock_facts laws; lia.
Qed.

(** A [Get] without hook on a key that is not cached: the clock does not
    go back; and when it returns a nil error it has sent the read of that
    key to the backing store, and either found no row and left the cache
    as it was, or found one row and cached what it read from it, stamped
    with a time of this call. *)
Lemma Get_nil_miss k c found v o er c' :
  sqlc.Cache c !! k = None ->
  sqlc.Client_Get cfg k None c = ((found, v, o, er), c') ->
  now_of c <= now_of c' /\
  (er = None ->
   exists t q,
     template_Parse (sqlc.GetSQL cfg) = inr t /\
     template_Execute t (list_to_map [("Key", k)]) = inr q /\
     accesses (sqlc.store c')
     = (accesses (sqlc.store c)
          ++ [AOpen (sqlc.DriverName cfg) (sqlc.DataSourceName cfg);
              AQuery q; AClose])%list /\
     ((found = false /\ sqlc.Cache c' = sqlc.Cache c) \/
      (found = true /\
       exists w w' r now,
         DB_QueryContext q w = (inr [r], w') /\
         sqlc.Get_row cfg r "" gokv.zeroOption = inr (v, o) /\
         now_of c <= now /\ now <= now_of c' /\
         sqlc.Cache c'
         = <[k := sqlc.mkCacheValue v o now]> (sqlc.Cache c)))).
Proof.
  intros Hmiss.
  unfold sqlc.Client_Get, util.CheckKeyAndValue, util.CheckKey.
  case_decide as Hk.
  { intros Hget. unfold_M. simplify_eq. split; [lia|done]. }
  unfold_M. simpl. rewrite Hmiss. intros Hget. run_cases.
  all: split; [clock_facts laws; lia|].
  all: intros Her; try discriminate.
  all: try (match goal with
            | Hm : match ?o with _ => _ end = None |- _ =>
                destruct o; discriminate
            end).
  all: try (match goal with
            | Hr : sqlc.Get_rows _ _ _ _ _ _ = inl _ |- _ =>
                apply Get_rows_return in Hr as (_ & _ & [? ->]);
                by apply multierr_Append_None in Her as [? _]
            end).
  all: match goal with
       | Hr : sqlc.Get_rows _ _ _ _ _ _ = inr _ |- _ =>
           apply Get_rows_end in Hr
             as [(-> & ? & ? & ?)|(r1 & -> & ? & Hrow)]; simplify_eq
       end.
  - eexists _, _. split; [done|]. split; [done|].
    split; [by rewrite <- !app_assoc|]. by left.
  - eexists _, _. split; [done|]. split; [done|].
    split; [by rewrite <- !app_assoc|]. right. split; [done|].
    eexists _, _, r1, _.
    refine (conj _ (conj _ (conj _ (conj _ eq_refl)))); [done|done|..];
      clock_facts laws; lia.
Qed.

(** The second loop, when it runs to its end: every key of [cacheKeys] was
    read again from the backing store, and an entry it has afterwards was
    decoded from the one row of that read and stamped during the loop;
    the other entries are untouched. *)
Lemma Refresh_refetch_ok ks :
  forall c c',
    NoDup ks ->
    sqlc.Refresh_refetch cfg ks c = (None, c') ->
    exists new,
      accesses (sqlc.store c') = (accesses (sqlc.store c) ++ new)%list /\
      now_of c <= now_of c' /\
      (forall k', k' ∉ ks -> sqlc.Cache c' !! k' = sqlc.Cache c !! k') /\
      (forall k, k ∈ ks ->
         exists t q,
           template_Parse (sqlc.GetSQL cfg) = inr t /\
           template_Execute t (list_to_map [("Key", k)]) = inr q /\
           AQuery q ∈ new /\
           forall cv', sqlc.Cache c' !! k = Some cv' ->
             now_of c <= sqlc.UpdateTime cv' /\
             exists w w' r,
               DB_QueryContext q w = (inr [r], w') /\
               sqlc.Get_row cfg r "" gokv.zeroOption
               = inr (sqlc.Value cv', sqlc.Option cv')).
Proof.
  induction ks as [|k ks IH]; intros c c' Hnd Hre.
  - simpl in Hre. unfold_M. simplify_eq. exists [].
    split; [by rewrite app_nil_r|]. split; [lia|]. split; [done|].
    intros k Hk. by inversion Hk.
  - cbn [sqlc.Refresh_refetch] in Hre. unfold_M. simpl in Hre.
    apply NoDup_cons in Hnd as [Hk Hnd].
    destruct (sqlc.Client_Get cfg k None
                (sqlc.mkClient (delete k (sqlc.Cache c)) (sqlc.store c)))
      as [[[[found v] o] [err|]] c1] eqn:Hget; [done|].
    pose proof (Get_nil_miss _ _ _ _ _ _ _ (lookup_delete_eq _ _) Hget)
      as [Hclk Hnil].
    destruct (Hnil eq_refl) as (t & q & Hp & Hx & Hacc & Hres).
    simpl in Hclk, Hacc, Hres. clear Hnil.
    destruct (IH _ _ Hnd Hre) as (new & Hacc' & Hclk' & Hframe & Hkeys).
    exists ([AOpen (sqlc.DriverName cfg) (sqlc.DataSourceName cfg);
             AQuery q; AClose] ++ new)%list.
    split; [by rewrite Hacc', Hacc, <- app_assoc|].
    split; [lia|]. split.
    + intros k' Hk'. apply not_elem_of_cons in Hk' as [Hne Hk'].
      rewrite (Hframe _ Hk'), (Get_frame _ _ _ _ _ _ k' Hget Hne). simpl.
      by rewrite lookup_delete_ne.
    + intros k0 Hk0. apply elem_of_cons in Hk0 as [->|Hk0].
      * exists t, q. split; [done|]. split; [done|].
        split; [apply elem_of_app; left; right; by left|].
        intros cv' Hcv'. rewrite (Hframe _ Hk) in Hcv'.
        destruct Hres as [[_ Hc1]|(_ & w & w' & r & now & Hq & Hrow &
                                   Hlo & Hhi & Hc1)];
          rewrite Hc1 in Hcv'.
        -- by rewrite lookup_delete_eq in Hcv'.
        -- rewrite lookup_insert_eq in Hcv'. simplify_eq. simpl.
           split; [lia|]. by exists w, w', r.
      * destruct (Hkeys _ Hk0) as (t0 & q0 & Hp0 & Hx0 & Hin0 & Hcv0).
        exists t0, q0. split; [done|]. split; [done|].
        split; [apply elem_of_app; by right|].
        intros cv' Hcv'. destruct (Hcv0 _ Hcv') as [Hle Hrow].
        split; [lia | done].
Qed.

(** ** The stamps of the cache

    [stamps_ok] holds of a new client and is kept by every operation, as
    long as the closures handed to the client do not set the clock
    back. *)

(** One step of the client: the clock did not go back, and an entry of
    the cache is an old one or is stamped by now. *)
Local Abbreviation steps c c' :=
  (now_of c <= now_of c' /\
   forall k cv, sqlc.Cache c' !! k = Some cv ->
                sqlc.Cache c !! k = Some cv \/
                sqlc.UpdateTime cv <= now_of c').

Lemma steps_stamps c c' :
  steps c c' -> sqlc.stamps_ok clock c -> sqlc.stamps_ok clock c'.
Proof.
  intros [Hclk Hent] Hok k cv Hk.
  destruct (Hent _ _ Hk) as [Hold|Hnew]; [|done].
  pose proof (Hok _ _ Hold). lia.
Qed.

Lemma steps_trans c1 c2 c3 : steps c1 c2 -> steps c2 c3 -> steps c1 c3.
Proof.
  intros [Hclk1 Hent1] [Hclk2 Hent2]. split; [lia|].
  intros k cv Hk. destruct (Hent2 _ _ Hk) as [Hold|Hnew]; [|by right].
  destruct (Hent1 _ _ Hold) as [Hold'|Hnew]; [by left|]. right. lia.
Qed.

Lemma NewClient_stamps s : sqlc.stamps_ok clock (sqlc.NewClient s).
Proof. intros k cv Hk. simpl in Hk. by rewrite lookup_empty in Hk. Qed.

(** The mutators do not set the clock back. *)
Local Abbreviation fns_forward fns :=
  (Forall (fun f : gokv.OptionFn =>
             forall o w o' w', f o w = (o', w') -> clock w <= clock w') fns).

Lemma OptionFns_Apply_clock fns :
  fns_forward fns ->
  forall o w o' w',
    gokv.OptionFns_Apply fns o w = (o', w') -> clock w <= clock w'.
Proof.
  induction 1 as [|f fns Hf _ IH]; intros o w o' w' Happ; simpl in Happ.
  - simplify_eq. lia.
  - destruct (f o w) as [o1 w1] eqn:Hfo.
    pose proof (Hf _ _ _ _ Hfo). pose proof (IH _ _ _ _ Happ). lia.
Qed.

Lemma Set_steps k v fns c er c' :
  fns_forward fns ->
  sqlc.Client_Set cfg k v fns c = (er, c') -> steps c c'.
Proof.
  intros Hfns. unfold sqlc.Client_Set. unfold_M. simpl. intros Hset.
  run_cases.
  all: try match goal with
           | Ha : gokv.OptionFns_Apply _ _ _ = _ |- _ =>
               pose proof (OptionFns_Apply_clock _ Hfns _ _ _ _ Ha)
           end.
  all: clock_facts laws.
  all: split; [lia|]; intros k0 cv Hk0; try (by left).
  apply lookup_insert_Some in Hk0 as [[_ <-]|[_ ?]]; [right|by left].
  simpl. lia.
Qed.

Lemma Del_steps k c r c' :
  sqlc.Client_Del cfg k c = (r, c') -> steps c c'.
Proof.
  unfold sqlc.Client_Del. unfold_M. simpl. intros Hdel.
  run_cases; clock_facts laws.
  all: split; [lia|]; intros k0 cv Hk0; try (by left).
  apply lookup_delete_Some in Hk0 as [_ ?]. by left.
Qed.

Lemma Get_steps k fn c r c' :
  (forall g, fn = Some g ->
             forall k w r w', g k w = (r, w') -> clock w <= clock w') ->
  sqlc.Client_Get cfg k fn c = (r, c') -> steps c c'.
Proof.
  intros Hfn. unfold sqlc.Client_Get. unfold_M. simpl. intros Hget.
  run_cases.
  all: try match goal with
           | Hg : ?g _ _ = (_, _, _, _) |- _ =>
               pose proof (Hfn g eq_refl _ _ _ _ Hg)
           end.
  all: try match goal with
           | Hs : sqlc.Client_Set _ _ _ _ _ = _ |- _ =>
               apply Set_steps in Hs;
               [ simpl in Hs; destruct Hs as [Hsc Hse]
               | by (constructor;
                     [ intros ? ? ? ? Happ; unfold gokv.Apply in Happ;
                       simplify_eq; lia
                     | constructor ]) ]
           end.
  all: clock_facts laws.
  all: split; [lia|]; intros k0 cv Hk0.
  all: first
         [ by left
         | apply lookup_insert_Some in Hk0 as [[_ <-]|[_ ?]];
           [right; simpl; lia | by left]
         | destruct (Hse _ _ Hk0) as [?|?]; [by left | right; lia] ].
Qed.

Lemma Refresh_refetch_steps ks :
  forall c r c', sqlc.Refresh_refetch cfg ks c = (r, c') -> steps c c'.
Proof.
  induction ks as [|k ks IH]; intros c r c' Hre.
  - simpl in Hre. unfold_M. simplify_eq. split; [lia | by left].
  - cbn [sqlc.Refresh_refetch] in Hre. unfold_M. simpl in Hre.
    destruct (sqlc.Client_Get cfg k None
                (sqlc.mkClient (delete k (sqlc.Cache c)) (sqlc.store c)))
      as [[[[found v] o] err] c1] eqn:Hget.
    apply Get_steps in Hget; [|done].
    assert (steps c (sqlc.mkClient (delete k (sqlc.Cache c))
                                   (sqlc.store c))) as Hdel.
    { split; [simpl; lia|]. intros k0 cv Hk0. simpl in Hk0.
      apply lookup_delete_Some in Hk0 as [_ ?]. by left. }
    pose proof (steps_trans _ _ _ Hdel Hget) as Hstep.
    destruct err as [err|]; [by simplify_eq|].
    exact (steps_trans _ _ _ Hstep (IH _ _ _ Hre)).
Qed.

(** [Refresh] keeps the stamps of the cache in order. *)
Lemma Refresh_stamps range c r c' :
  sqlc.stamps_ok clock c ->
  sqlc.Client_Refresh cfg range c = (r, c') ->
  sqlc.stamps_ok clock c'.
Proof.
  intros Hok Hre. apply (steps_stamps c); [|done].
  unfold sqlc.Client_Refresh in Hre. unfold_M.
  destruct (sqlc.Client_Keys cfg c) as [[live err] c0] eqn:Hkeys.
  pose proof (Keys_cache _ _ _ _ Hkeys) as Hc0.
  pose proof (Keys_clock _ _ _ Hkeys) as Hclk0.
  assert (steps c c0) as Hs0.
  { split; [done|]. intros k cv Hk. left. by rewrite <- Hc0. }
  destruct err as [err|]; [by simplify_eq|]. simpl in Hre.
  destruct (sqlc.Refresh_sweep (sqlc.Refresh_keysMap live)
              (range (map_to_list (sqlc.Cache c0)).*1) [] c0)
    as [cacheKeys c1] eqn:Hsweep.
  apply Refresh_sweep_spec in Hsweep as (Hs1 & _ & Hc1).
  assert (steps c0 c1) as Hs01.
  { split; [rewrite Hs1; lia|]. intros k cv Hk. left.
    rewrite Hc1 in Hk. by case_decide. }
  apply Refresh_refetch_steps in Hre.
  exact (steps_trans _ _ _ Hs0 (steps_trans _ _ _ Hs01 Hre)).
Qed.

(** ** Refresh converges on the live keys *)

(** C4.  One cycle of [Refresh], on the live key set [live] that [Keys]
    returned, with a clock that does not run backwards and cache entries
    that were not stamped in the future.  After the cycle no key outside
    the live set is cached (every cached key absent from the live set was
    evicted), and nothing is cached that was not cached and live.  When
    the cycle completes (returns nil), every cached key [k] that is live
    was evicted and read again from the backing store through [Get]: the
    re-fetch loop reached [k] after the live cached keys before it, opened
    a connection in the world it had reached and sent the read of [k];
    when that read returned one row, the entry of [k] after the cycle is
    the value and option decoded from that row, stamped with the time
    read then, which is not before the [UpdateTime] the entry had; when
    it returned no row, [k] is no longer cached. *)
Theorem Refresh_converges range c live c0 er c' :
  (forall l, range l ≡ₚ l) ->
  sqlc.stamps_ok clock c ->
  sqlc.Client_Keys cfg c = ((live, None), c0) ->
  sqlc.Client_Refresh cfg range c = (er, c') ->
  (forall k, k ∉ live -> sqlc.Cache c' !! k = None) /\
  (forall k, is_Some (sqlc.Cache c' !! k) ->
             is_Some (sqlc.Cache c !! k) /\ k ∈ live) /\
  (er = None ->
   exists new,
     accesses (sqlc.store c') = (accesses (sqlc.store c0) ++ new)%list /\
     forall k cv, sqlc.Cache c !! k = Some cv -> k ∈ live ->
       exists ks1 ks2 c2 t q w1 rows w2,
         filter (fun k => k ∈ live) (range (map_to_list (sqlc.Cache c)).*1)
         = (ks1 ++ k :: ks2)%list /\
         sqlc.Refresh_refetch cfg ks1
           (sqlc.mkClient
              (filter (fun kv : string * sqlc.CacheValue => kv.1 ∈ live)
                      (sqlc.Cache c))
              (sqlc.store c0))
         = (None, c2) /\
         template_Parse (sqlc.GetSQL cfg) = inr t /\
         template_Execute t (list_to_map [("Key", k)]) = inr q /\
         AQuery q ∈ new /\
         sql_Open (sqlc.DriverName cfg) (sqlc.DataSourceName cfg)
           (world (sqlc.store c2)) = (None, w1) /\
         DB_QueryContext q w1 = (inr rows, w2) /\
         ((rows = [] /\ sqlc.Cache c' !! k = None) \/
          (exists r v o now w3,
              rows = [r] /\
              sqlc.Get_row cfg r "" gokv.zeroOption = inr (v, o) /\
              time_Now w2 = (now, w3) /\
              sqlc.Cache c' !! k = Some (sqlc.mkCacheValue v o now) /\
              sqlc.UpdateTime cv <= now))).
Proof.
  intros Hperm Hstamps Hkeys Hre. unfold sqlc.Client_Refresh in Hre.
  unfold_M. rewrite Hkeys in Hre. simpl in Hre.
  pose proof (Keys_cache _ _ _ _ Hkeys) as Hc0.
  pose proof (Keys_clock _ _ _ Hkeys) as Hclk0.
  rewrite (Refresh_sweep_filter range live c0 Hperm), Hc0 in Hre.
  set (cacheKeys := filter (fun k => k ∈ live)
                           (range (map_to_list (sqlc.Cache c)).*1)) in *.
  set (c1 := sqlc.mkClient
               (filter (fun kv : string * sqlc.CacheValue => kv.1 ∈ live)
                       (sqlc.Cache c))
               (sqlc.store c0)) in *.
  destruct (range_keys range (sqlc.Cache c) Hperm) as [Hnd Hin].
  assert (NoDup cacheKeys) as Hnd' by (by apply NoDup_filter).
  assert (forall k, k ∈ cacheKeys <->
                    k ∈ live /\ is_Some (sqlc.Cache c !! k)) as Hmem.
  { intros k. unfold cacheKeys. rewrite list_elem_of_filter, Hin. done. }
  assert (forall k, k ∉ cacheKeys ->
                    sqlc.Cache c' !! k = sqlc.Cache c1 !! k) as Hframe.
  { intros k Hk. by apply (Refresh_refetch_frame cfg cacheKeys c1 er). }
  assert (forall k, k ∉ live -> sqlc.Cache c1 !! k = None) as Hdead.
  { intros k Hnl. apply map_lookup_filter_None. right. intros cv _. done. }
  split; [|split].
  - intros k Hnl. rewrite Hframe by (rewrite Hmem; tauto). by apply Hdead.
  - intros k Hsome. destruct (decide (k ∈ cacheKeys)) as [Hk|Hk].
    + apply Hmem in Hk. tauto.
    + rewrite Hframe in Hsome by done. destruct Hsome as [cv Hcv].
      apply map_lookup_filter_Some in Hcv as [Hcv Hl]. eauto.
  - intros ->.
    destruct (Refresh_refetch_ok _ _ _ Hnd' Hre)
      as (new & Hacc & _ & _ & Hkeys').
    exists new. split; [done|].
    intros k cv Hcv Hl.
    assert (k ∈ cacheKeys) as Hk by (apply Hmem; eauto).
    destruct (Hkeys' k Hk) as (t & q & Hp & Hx & Hq & _).
    destruct (list_elem_of_split _ _ Hk) as (ks1 & ks2 & Hsplit).
    rewrite Hsplit in Hre, Hnd'.
    apply NoDup_app in Hnd' as (_ & _ & Hnd2).
    apply NoDup_cons in Hnd2 as [Hk2 _].
    rewrite Refresh_refetch_app in Hre.
    destruct (sqlc.Refresh_refetch cfg ks1 c1) as [[e1|] c2] eqn:Hks1;
      [done|].
    cbn [sqlc.Refresh_refetch] in Hre. unfold_M. simpl in Hre.
    destruct (sqlc.Client_Get cfg k None
                (sqlc.mkClient (delete k (sqlc.Cache c2)) (sqlc.store c2)))
      as [[[[found v] o] [err|]] c3] eqn:Hget; [done|].
    destruct (Get_nil_miss_exact _ _ _ _ _ _ _ (lookup_delete_eq _ _) Hget)
      as (t' & q' & w1 & rows & w2 & _ & Hp' & Hx' & Hopen & Hquery & Hres).
    simpl in Hopen, Hres.
    rewrite Hp in Hp'. simplify_eq. rewrite Hx in Hx'. simplify_eq.
    exists ks1, ks2, c2, t', q', w1, rows, w2.
    repeat (split; [done|]).
    rewrite (Refresh_refetch_frame _ _ _ _ _ k Hre Hk2).
    destruct Hres as [(-> & _ & ->)|(r & now & w3 & -> & _ & Hrow & Hnow & ->)].
    + left. split; [done | apply lookup_delete_eq].
    + right. exists r, v, o, now, w3. repeat (split; [done|]).
      split; [apply lookup_insert_eq|].
      pose proof (Hstamps _ _ Hcv) as Hold.
      destruct (Refresh_refetch_steps _ _ _ _ Hks1) as [Hclk1 _].
      simpl in Hclk1. clock_facts laws. lia.
Qed.

End refresh_convergence.

(** ** The option that Set builds *)

Section option_properties.
Context {W : Type} `{Driver W}.

(** The mutators are applied one after the other, in the order of the
    slice. *)
Lemma OptionFns_Apply_app (fns1 fns2 : gokv_any.OptionFns)
    (o : gokv_any.Option) (w : W) :
  gokv_any.OptionFns_Apply (fns1 ++ fns2)%list o w
  = let '(o1, w1) := gokv_any.OptionFns_Apply fns1 o w in
    gokv_any.OptionFns_Apply fns2 o1 w1.
Proof.
  revert o w. induction fns1 as [|f fns1 IH]; intros o w; simpl; [done|].
  destruct (f o w) as [o' w']. apply IH.
Qed.

(** A caching [Set] that returns nil has cached the value with the option
    the mutators built from the zero option, as they left it. *)
Lemma Set_nil_option (cfg : sqlc.Config) k v fns c c' :
  sqlc.Client_Set cfg k v fns c = (None, c') ->
  exists option w1 t,
    gokv.OptionFns_Apply fns gokv.zeroOption (world (sqlc.store c))
    = (option, w1) /\
    sqlc.Cache c' !! k = Some (sqlc.mkCacheValue v option t).
Proof.
  unfold sqlc.Client_Set. unfold_M. simpl. intros Hset.
  run_cases; use_Append_None.
  all: try (match goal with
            | Hm : match ?o with _ => _ end = None |- _ =>
                destruct o; discriminate
            end).
  eexists _, _, _. split; [done|]. apply lookup_insert_eq.
Qed.

(** C9, as amended.  [Set] builds the final option by applying the
    supplied mutators in sequence to a zero-valued option.  The client
    whose option has a [CreateTime] then stamps it with the current time
    unconditionally: the option it marshals into the statement has the
    expiry the mutators left and the formatted current time as
    [CreateTime], whatever a mutator had put there.  The caching client,
    whose option has no [CreateTime], caches the option as the mutators
    left it. *)
Theorem Set_builds_option_and_stamps_CreateTime :
  (forall (V : Type) (c : sqlc_direct.Client V) k v fns s s',
      sqlc_direct.Client_Set c k v fns s = (None, s') ->
      exists o0 w1 now w2 data optionData t now2 query,
        gokv_any.OptionFns_Apply fns gokv_any.zeroOption (world s)
        = (o0, w1) /\
        time_Now w1 = (now, w2) /\
        sqlc_direct.Marshal (sqlc_direct.Codec_ c) v = inr data /\
        sqlc_direct.MarshalOption (sqlc_direct.Codec_ c)
          (gokv_any.mkOption (gokv_any.Option_Expired o0) (time_Format now))
        = inr optionData /\
        template_Parse (sqlc_direct.SetSQL c) = inr t /\
        template_Execute t
          (list_to_map [("Key", k); ("Value", data);
                        ("Option", optionData);
                        ("Time", time_Format now2)]) = inr query /\
        AExec query ∈ accesses s') /\
  (forall (cfg : sqlc.Config) k v fns c c',
      sqlc.Client_Set cfg k v fns c = (None, c') ->
      exists option w1 t,
        gokv.OptionFns_Apply fns gokv.zeroOption (world (sqlc.store c))
        = (option, w1) /\
        sqlc.Cache c' !! k = Some (sqlc.mkCacheValue v option t)).
Proof.
  split; [|apply Set_nil_option].
  intros V c k v fns s s'.
  unfold sqlc_direct.Client_Set, sqlc_direct.Set_option. unfold_M. simpl.
  intros Hset. run_cases.
  eexists _, _, _, _, _, _, _, _, _.
  repeat (split; [done|]). simpl.
  apply elem_of_app. left. apply elem_of_app. right. by left.
Qed.

End option_properties.

(** ** Del in the client without a cache *)

Section direct_properties.
Context {W : Type} `{Driver W} {V : Type}.
Variable c : sqlc_direct.Client V.

(** There, a [Del] that returns a nil error reports [found] exactly when
    the statement affected at least one row. *)
Lemma direct_Del_found k s found s' :
  sqlc_direct.Client_Del c k s = ((found, None), s') ->
  exists query w result w' rowsAffected,
    AExec query ∈ accesses s' /\
    DB_ExecContext query w = (inr result, w') /\
    RowsAffected result = inr rowsAffected /\
    (found = true <-> 0 < rowsAffected).
Proof.
  unfold sqlc_direct.Client_Del. unfold_M. simpl. intros Hdel.
  run_cases.
  eexists _, _, _, _, _. split; [|split; [done|split; [done|]]].
  - simpl. apply elem_of_app. left. apply elem_of_app. right. by left.
  - by rewrite bool_decide_eq_true.
Qed.

(** X20.  There, [Get] drops the result of the write-through: a failing
    [Set] after a successful hook still gives [(true, newOption, nil)]. *)
Lemma direct_Get_drops_Set_error k v fn t query w1 w2 v' opt w3 s :
  k <> "" ->
  template_Parse (sqlc_direct.GetSQL c) = inr t ->
  template_Execute t (list_to_map [("Key", k)]) = inr query ->
  sql_Open (sqlc_direct.DriverName c) (sqlc_direct.DataSourceName c)
           (world s) = (None, w1) ->
  DB_QueryContext query w1 = (inr [], w2) ->
  fn k v w2 = ((v', opt, None), w3) ->
  exists s', sqlc_direct.Client_Get c k v (Some fn) s
             = ((true, opt, None, v'), s').
Proof.
  intros Hk Hp Hx Hopen Hquery Hfn.
  unfold sqlc_direct.Client_Get, util.CheckKeyAndValue, util.CheckKey.
  case_decide; [done|]. unfold_M. simpl in *.
  repeat (first [ rewrite Hp | rewrite Hx | rewrite Hopen
                | rewrite Hquery | rewrite Hfn ]; simpl).
  match goal with
  | |- context [sqlc_direct.Client_Set c k v' ?fs ?st] =>
      destruct (sqlc_direct.Client_Set c k v' fs st) as [err s2]
  end.
  destruct (DB_Close (world s2)) as [ce w4]. simpl. eauto.
Qed.

End direct_properties.

(** * Runs on the scripted store *)

Import scripted.

Lemma scripted_clock_laws : ClockLaws clock.
Proof.
  split; simpl.
  - intros w t w' Hnow. simplify_eq. simpl. lia.
  - intros d n w e w' Hop.
    destruct (replies w) as [|[] ?]; simplify_eq; simpl; lia.
  - intros w e w' Hop.
    destruct (replies w) as [|[] ?]; simplify_eq; simpl; lia.
  - intros q w r w' Hop.
    destruct (replies w) as [|[] ?]; simplify_eq; simpl; lia.
  - intros q w r w' Hop.
    destruct (replies w) as [|[] ?]; simplify_eq; simpl; lia.
Qed.

Lemma range_id_perm (l : list string) : range_id l ≡ₚ l.
Proof. reflexivity. Qed.

Lemma cache_A_B_stamps rs : sqlc.stamps_ok clock (cache_A_B rs).
Proof.
  unfold cache_A_B. intros k cv. simpl. intros Hk.
  apply lookup_insert_Some in Hk as [[_ <-]|[_ Hk]]; [simpl; lia|].
  apply lookup_insert_Some in Hk as [[_ <-]|[_ Hk]]; [simpl; lia|].
  by rewrite lookup_empty in Hk.
Qed.

(** C1 on a run: [Set("k", "v")] on a fresh client, then [Get("k")]. *)
Lemma Set_then_Get_round_trip_witness :
  exists option,
    sqlc.Client_Get config "k" None
      (sqlc.Client_Set config "k" "v" [] fresh).2
    = ((true, "v", option, None),
       (sqlc.Client_Set config "k" "v" [] fresh).2).
Proof.
  apply (Set_then_Get_round_trip config "k" "v" [] None fresh);
    [done | vm_compute; reflexivity].
Defined.

(** C10 on a run: the statement executes, the release fails. *)
Lemma Set_release_error_after_cache_write_witness :
  exists c',
    sqlc.Client_Set config "k" "v" [] fresh_release_fails = (Some busy, c') /\
    sqlc.Cache c' !! "k" = Some (sqlc.mkCacheValue "v" gokv.zeroOption 11) /\
    sqlc.Cache c'
    = <["k" := sqlc.mkCacheValue "v" gokv.zeroOption 11]>
        (sqlc.Cache fresh_release_fails).
Proof.
  eapply (Set_release_error_after_cache_write config "k" "v" []
            fresh_release_fails);
    [done | reflexivity ..].
Defined.

(** C2 on a run.  [Set("k", "v")], then [Del("k")] twice; the second delete
    affects no row, and [Del] still reports [(true, nil)], where the
    specification has [(false, nil)]. *)
Theorem Del_twice_reports_found_both_times :
  first_del.1 = (true, None) /\
  second_del.1 = (true, None) /\
  sqlc.Cache first_del.2 !! "k" = None /\
  replies (world (sqlc.store first_del.2))
  = [ROpen None; affected 0; RClose None].
Proof. vm_compute. repeat split; reflexivity. Qed.

(** C3, the statement of the specification fails: the read returns two
    rows, the second column of the first does not decode, and [Get] returns
    the error of the codec, which does not wrap [ErrTooManyValues]. *)
Lemma Get_two_rows_decode_error :
  (sqlc.Client_Get config "k" None
     (two_rows (row2 "v1" "junk") (row2 "v2" "{0}"))).1
  = (false, "", gokv.zeroOption, Some (External "invalid character")) /\
  errors_Is (External "invalid character") ErrTooManyValues = false.
Proof. vm_compute. split; reflexivity. Qed.

(** C3 as amended, on a run with two rows of one column. *)
Lemma Get_too_many_rows_witness :
  exists option e c',
    sqlc.Client_Get config "k" None (two_rows (row1 "v1") (row1 "v2"))
    = ((false, "", option, Some e), c') /\
    sqlc.Cache c' = sqlc.Cache (two_rows (row1 "v1") (row1 "v2")) /\
    (forall v1 o1,
        sqlc.Get_row config (row1 "v1") "" gokv.zeroOption = inr (v1, o1) ->
        errors_Is e ErrTooManyValues = true) /\
    (forall o1 e1,
        sqlc.Get_row config (row1 "v1") "" gokv.zeroOption = inl (o1, e1) ->
        errors_Is e e1 = true).
Proof.
  eapply (Get_too_many_rows config "k" None
            (two_rows (row1 "v1") (row1 "v2")));
    [done | reflexivity ..].
Defined.

(** C5, the statement of the specification fails: [A] and [B] are cached
    and live, the read of [A] fails, [Refresh] returns that error, and [B],
    which was still to be processed, is in the cache with the entry it
    had. *)
Lemma Refresh_abort_leaves_B_cached :
  (sqlc.Client_Refresh config range_id live_A_B_read_fails).1 = Some busy /\
  sqlc.Cache (sqlc.Client_Refresh config range_id live_A_B_read_fails).2
    !! "B"
  = Some (sqlc.mkCacheValue "oldB" gokv.zeroOption 4) /\
  accesses
    (sqlc.store (sqlc.Client_Refresh config range_id live_A_B_read_fails).2)
  = [AOpen "mysql" "user:pass@tcp(localhost:3306)/testdb";
     AQuery "keys||||"; AClose;
     AOpen "mysql" "user:pass@tcp(localhost:3306)/testdb";
     AQuery "get|A|||"; AClose].
Proof. vm_compute. repeat split; reflexivity. Qed.

(** C5 as amended, on the same run: the loop is at [A], its first key,
    whose read fails, and [B] is still to be processed. *)
Lemma Refresh_abort_keeps_remaining_entries_witness :
  exists e' c3,
    multierr_Append (Some busy) None = Some e' /\
    errors_Is e' busy = true /\
    sqlc.Client_Refresh config range_id live_A_B_read_fails
    = (Some e', c3) /\
    sqlc.store c3
    = mkStore (mkWorld 10 [])
        (accesses (sqlc.store (sqlc.Client_Keys config live_A_B_read_fails).2)
           ++ [AOpen (sqlc.DriverName config) (sqlc.DataSourceName config);
               AQuery "get|A|||"; AClose])%list /\
    sqlc.Cache c3 !! "A" = None /\
    forall k', k' ∈ ["B"] ->
               is_Some (sqlc.Cache live_A_B_read_fails !! k') /\
               sqlc.Cache c3 !! k' = sqlc.Cache live_A_B_read_fails !! k'.
Proof.
  destruct (Refresh_abort_keeps_remaining_entries config range_id
              live_A_B_read_fails ["A"; "B"]
              (sqlc.Client_Keys config live_A_B_read_fails).2
              [] "A" ["B"]
              (sqlc.mkClient
                 (sqlc.Cache live_A_B_read_fails)
                 (sqlc.store (sqlc.Client_Keys config live_A_B_read_fails).2)))
    as [_ Hread];
    [exact range_id_perm | vm_compute; reflexivity .. |].
  eapply Hread; [done | reflexivity ..].
Defined.

(** C4 on a run: [A] and [B] are cached, [A] and [C] are live. *)
Lemma Refresh_converges_witness :
  (forall k,
      k ∉ ["A"; "C"] ->
      sqlc.Cache (sqlc.Client_Refresh config range_id live_A_C).2 !! k
      = None) /\
  (forall k,
      is_Some
        (sqlc.Cache (sqlc.Client_Refresh config range_id live_A_C).2 !! k) ->
      is_Some (sqlc.Cache live_A_C !! k) /\ k ∈ ["A"; "C"]) /\
  (@None error = None ->
   exists new,
     accesses (sqlc.store (sqlc.Client_Refresh config range_id live_A_C).2)
     = (accesses (sqlc.store (sqlc.Client_Keys config live_A_C).2)
          ++ new)%list /\
     forall k cv, sqlc.Cache live_A_C !! k = Some cv -> k ∈ ["A"; "C"] ->
       exists ks1 ks2 c2 t q w1 rows w2,
         filter (fun k => k ∈ ["A"; "C"])
                (range_id (map_to_list (sqlc.Cache live_A_C)).*1)
         = (ks1 ++ k :: ks2)%list /\
         sqlc.Refresh_refetch config ks1
           (sqlc.mkClient
              (filter (fun kv : string * sqlc.CacheValue =>
                         kv.1 ∈ ["A"; "C"])
                      (sqlc.Cache live_A_C))
              (sqlc.store (sqlc.Client_Keys config live_A_C).2))
         = (None, c2) /\
         template_Parse (sqlc.GetSQL config) = inr t /\
         template_Execute t (list_to_map [("Key", k)]) = inr q /\
         AQuery q ∈ new /\
         sql_Open (sqlc.DriverName config) (sqlc.DataSourceName config)
           (world (sqlc.store c2)) = (None, w1) /\
         DB_QueryContext q w1 = (inr rows, w2) /\
         ((rows = [] /\
           sqlc.Cache (sqlc.Client_Refresh config range_id live_A_C).2 !! k
           = None) \/
          (exists r v o now w3,
              rows = [r] /\
              sqlc.Get_row config r "" gokv.zeroOption = inr (v, o) /\
              time_Now w2 = (now, w3) /\
              sqlc.Cache (sqlc.Client_Refresh config range_id live_A_C).2 !! k
              = Some (sqlc.mkCacheValue v o now) /\
              sqlc.UpdateTime cv <= now))).
Proof.
  apply (Refresh_converges config clock scripted_clock_laws range_id
           live_A_C ["A"; "C"] (sqlc.Client_Keys config live_A_C).2 None);
    [exact range_id_perm | exact (cache_A_B_stamps _)
    | vm_compute; reflexivity | vm_compute; reflexivity].
Defined.

(** The same run, evaluated: [B] is gone, [A] holds the value of the store
    and a later stamp. *)
Example Refresh_live_A_C :
  (sqlc.Client_Refresh config range_id live_A_C).1 = None /\
  map_to_list (sqlc.Cache (sqlc.Client_Refresh config range_id live_A_C).2)
  = [("A", sqlc.mkCacheValue "newA" gokv.zeroOption 10)].
Proof. vm_compute. split; reflexivity. Qed.

(** C6, the statement of the specification fails: no row, the hook
    generates, the write-through goes well, the connection of [Get] fails
    to close, and [Get] returns [(true, v, opt, err)] with a non-nil
    [err]. *)
Lemma Get_generated_with_release_error :
  (sqlc.Client_Get config "k" (Some generate) generated_release_fails).1
  = (true, "generated", gokv.mkOption 5, Some busy).
Proof. vm_compute. reflexivity. Qed.

(** C6 as amended, on the same run. *)
Lemma Get_generates_and_writes_through_witness :
  exists w3 query err c2 ce s3,
    sqlc.Client_Set config "k" "generated" [gokv.Apply (gokv.mkOption 5)]
      (sqlc.mkClient (sqlc.Cache generated_release_fails)
         (mkStore w3
            (accesses (sqlc.store generated_release_fails)
               ++ [AOpen (sqlc.DriverName config) (sqlc.DataSourceName config);
                   AQuery query])%list))
    = (err, c2) /\
    store_Close (sqlc.store c2) = (ce, s3) /\
    sqlc.Client_Get config "k" (Some generate) generated_release_fails
    = (match err with
       | None => (true, "generated", gokv.mkOption 5, ce)
       | Some e => (false, "", gokv.zeroOption, multierr_Append (Some e) ce)
       end, sqlc.mkClient (sqlc.Cache c2) s3) /\
    (forall e, err = Some e ->
       exists e', multierr_Append (Some e) ce = Some e' /\
                  errors_Is e' e = true).
Proof.
  eexists _, _.
  eapply (Get_generates_and_writes_through config "k" generate
            generated_release_fails);
    [done | reflexivity ..].
Defined.

(** C7, the statement of the specification fails: the delete executes, the
    release fails, [Del] returns a non-nil error, and the entry of ["k"] is
    gone. *)
Lemma Del_release_error_after_eviction :
  (sqlc.Client_Del config "k" cached_release_fails).1 = (true, Some busy) /\
  sqlc.Cache cached_release_fails !! "k"
  = Some (sqlc.mkCacheValue "v" gokv.zeroOption 3) /\
  sqlc.Cache (sqlc.Client_Del config "k" cached_release_fails).2 !! "k"
  = None.
Proof. vm_compute. repeat split; reflexivity. Qed.

(** C7 as amended, on the same run, and on a run where the statement
    fails: the entry of ["k"] stays and [Del] returns the error of the
    statement. *)
Lemma Del_evicts_only_after_exec_witness :
  (exists t now w1 query w2 result w3 w4,
      "k" <> "" /\
      template_Parse (sqlc.DeleteSQL config) = inr t /\
      time_Now (world (sqlc.store cached_release_fails)) = (now, w1) /\
      template_Execute t
        (list_to_map [("Key", "k"); ("Time", time_Format now)]) = inr query /\
      sql_Open (sqlc.DriverName config) (sqlc.DataSourceName config) w1
      = (None, w2) /\
      DB_ExecContext query w2 = (inr result, w3) /\
      DB_Close w3 = (Some busy, w4) /\
      (sqlc.Client_Del config "k" cached_release_fails).2
      = sqlc.mkClient
          (delete "k" (sqlc.Cache cached_release_fails))
          (mkStore w4
             (accesses (sqlc.store cached_release_fails)
                ++ [AOpen (sqlc.DriverName config) (sqlc.DataSourceName config);
                    AExec query; AClose])%list)) /\
  (false = false /\
   Some busy = multierr_Append (Some busy) None /\
   sqlc.Cache
     (sqlc.Client_Del config "k"
        (cached [ROpen None; RExec (inl busy); RClose None])).2
   = sqlc.Cache (cached [ROpen None; RExec (inl busy); RClose None])).
Proof.
  split.
  - refine (proj1 (proj2
              (Del_evicts_only_after_exec config "k" cached_release_fails
                 true (Some busy)
                 (sqlc.Client_Del config "k" cached_release_fails).2 _))
              eq_refl).
    vm_compute. reflexivity.
  - refine (proj1 (proj2 (proj2
              (Del_evicts_only_after_exec config "k"
                 (cached [ROpen None; RExec (inl busy); RClose None])
                 false (Some busy)
                 (sqlc.Client_Del config "k"
                    (cached [ROpen None; RExec (inl busy); RClose None])).2
                 _)))
              "del" 10 (mkWorld 11 [ROpen None; RExec (inl busy); RClose None])
              "del|k|||t10" (mkWorld 11 [RExec (inl busy); RClose None])
              busy (mkWorld 11 [RClose None]) None (mkWorld 11 [])
              _ eq_refl eq_refl eq_refl eq_refl eq_refl eq_refl);
      [vm_compute; reflexivity | done].
Defined.

(** C9, the statement of the specification fails: a mutator sets
    [CreateTime], and the option that [Set] builds and sends has the current
    time instead. *)
Lemma Set_overwrites_CreateTime :
  (sqlc_direct.Set_option [gokv_any.Apply created_2020] (start 10 [])).1
  = gokv_any.mkOption 0 "t10" /\
  gokv_any.CreateTime created_2020 = "2020-01-01 00:00:00.000" /\
  sqlc_direct.Client_Set client "k" "v" [gokv_any.Apply created_2020]
    (start 10 [ROpen None; affected 1; RClose None])
  = (None,
     mkStore (mkWorld 12 [])
       [AOpen "mysql" "user:pass@tcp(localhost:3306)/testdb";
        AExec "set|k|v|t10|t11"; AClose]).
Proof. vm_compute. repeat split; reflexivity. Qed.

(** C9 as amended, on the same run. *)
Lemma Set_builds_option_and_stamps_CreateTime_witness :
  exists o0 w1 now w2 data optionData t now2 query,
    gokv_any.OptionFns_Apply [gokv_any.Apply created_2020]
      gokv_any.zeroOption (mkWorld 10 [ROpen None; affected 1; RClose None])
    = (o0, w1) /\
    time_Now w1 = (now, w2) /\
    sqlc_direct.Marshal (sqlc_direct.Codec_ client) "v" = inr data /\
    sqlc_direct.MarshalOption (sqlc_direct.Codec_ client)
      (gokv_any.mkOption (gokv_any.Option_Expired o0) (time_Format now))
    = inr optionData /\
    template_Parse (sqlc_direct.SetSQL client) = inr t /\
    template_Execute t
      (list_to_map [("Key", "k"); ("Value", data); ("Option", optionData);
                    ("Time", time_Format now2)]) = inr query /\
    AExec query
    ∈ [AOpen "mysql" "user:pass@tcp(localhost:3306)/testdb";
       AExec "set|k|v|t10|t11"; AClose].
Proof.
  apply (proj1 Set_builds_option_and_stamps_CreateTime string client
           "k" "v" [gokv_any.Apply created_2020]
           (start 10 [ROpen None; affected 1; RClose None])
           (mkStore (mkWorld 12 [])
              [AOpen "mysql" "user:pass@tcp(localhost:3306)/testdb";
               AExec "set|k|v|t10|t11"; AClose])).
  vm_compute. reflexivity.
Defined.

(** * Further properties of the caching client *)

Section sqlc_more.
Context {W : Type} `{Driver W}.
Variable cfg : sqlc.Config.

(** Runs [Get] up to its query, along the given answers. *)
Ltac Get_to_query Hk Hmiss Hp Hx Hopen Hquery :=
  unfold sqlc.Client_Get, util.CheckKeyAndValue, util.CheckKey;
  case_decide; [done|]; unfold_M; simpl in *;
  repeat (first [ rewrite Hmiss | rewrite Hp | rewrite Hx | rewrite Hopen
                | rewrite Hquery ]; simpl).

(** X1.  A key that is neither cached nor stored, read without a hook:
    [Get] sends the one read, returns [found = false] with the empty value
    and the zero option, and leaves the cache as it was; its error is what
    the release of the connection returned. *)
Theorem Get_absent_without_hook k c t query w1 w2 ce w3 :
  k <> "" ->
  sqlc.Cache c !! k = None ->
  template_Parse (sqlc.GetSQL cfg) = inr t ->
  template_Execute t (list_to_map [("Key", k)]) = inr query ->
  sql_Open (sqlc.DriverName cfg) (sqlc.DataSourceName cfg)
           (world (sqlc.store c)) = (None, w1) ->
  DB_QueryContext query w1 = (inr [], w2) ->
  DB_Close w2 = (ce, w3) ->
  sqlc.Client_Get cfg k None c
  = ((false, "", gokv.zeroOption, ce),
     sqlc.mkClient (sqlc.Cache c)
       (mkStore w3
          (accesses (sqlc.store c)
             ++ [AOpen (sqlc.DriverName cfg) (sqlc.DataSourceName cfg);
                 AQuery query; AClose])%list)).
Proof.
  intros Hk Hmiss Hp Hx Hopen Hquery Hclose.
  Get_to_query Hk Hmiss Hp Hx Hopen Hquery.
  rewrite Hclose. simpl. by rewrite <- !app_assoc.
Qed.

(** X2.  Read-through, then hit.  A key that is not cached and has one row
    that reads without error as [(v, o)]: [Get] returns [found = true] with
    [v] and [o], whatever the hook, and caches them; the [Get] that follows
    returns the same from the cache, with a nil error and the client left
    as it is. *)
Theorem Get_read_through_then_hit k fn c t query w1 r w2 v o :
  k <> "" ->
  sqlc.Cache c !! k = None ->
  template_Parse (sqlc.GetSQL cfg) = inr t ->
  template_Execute t (list_to_map [("Key", k)]) = inr query ->
  sql_Open (sqlc.DriverName cfg) (sqlc.DataSourceName cfg)
           (world (sqlc.store c)) = (None, w1) ->
  DB_QueryContext query w1 = (inr [r], w2) ->
  sqlc.Get_row cfg r "" gokv.zeroOption = inr (v, o) ->
  exists er c',
    sqlc.Client_Get cfg k fn c = ((true, v, o, er), c') /\
    (exists now, sqlc.Cache c'
                 = <[k := sqlc.mkCacheValue v o now]> (sqlc.Cache c)) /\
    forall fn', sqlc.Client_Get cfg k fn' c' = ((true, v, o, None), c').
Proof.
  intros Hk Hmiss Hp Hx Hopen Hquery Hrow.
  Get_to_query Hk Hmiss Hp Hx Hopen Hquery.
  rewrite Hrow. simpl.
  destruct (time_Now w2) as [now w3]. simpl.
  destruct (DB_Close w3) as [ce w4]. simpl.
  eexists _, _. split; [by destruct fn|]. split; [by eexists|].
  intros fn'. simpl. by rewrite lookup_insert_eq.
Qed.

(** X3.  When the read fails, [Get] returns [found = false] and an error
    that wraps the one of the backing store, and the cache is as it was. *)
Theorem Get_query_error_returned k fn c t query w1 e w2 :
  k <> "" ->
  sqlc.Cache c !! k = None ->
  template_Parse (sqlc.GetSQL cfg) = inr t ->
  template_Execute t (list_to_map [("Key", k)]) = inr query ->
  sql_Open (sqlc.DriverName cfg) (sqlc.DataSourceName cfg)
           (world (sqlc.store c)) = (None, w1) ->
  DB_QueryContext query w1 = (inl e, w2) ->
  exists e' c',
    sqlc.Client_Get cfg k fn c = ((false, "", gokv.zeroOption, Some e'), c') /\
    errors_Is e' e = true /\
    sqlc.Cache c' = sqlc.Cache c.
Proof.
  intros Hk Hmiss Hp Hx Hopen Hquery.
  Get_to_query Hk Hmiss Hp Hx Hopen Hquery.
  destruct (DB_Close w2) as [ce w3]. simpl.
  destruct (errors_Is_Append e ce e (errors_Is_refl e)) as (e' & He' & His).
  simpl in He'. rewrite He'. by eexists _, _.
Qed.

(** X4.  When the hook fails, nothing is persisted: [Get] returns
    [found = false] and an error that wraps the one of the hook, the cache
    is as it was, and the read is the only call the backing store saw. *)
Theorem Get_hook_error_not_persisted k fn c t query w1 w2 v opt e w3 :
  k <> "" ->
  sqlc.Cache c !! k = None ->
  template_Parse (sqlc.GetSQL cfg) = inr t ->
  template_Execute t (list_to_map [("Key", k)]) = inr query ->
  sql_Open (sqlc.DriverName cfg) (sqlc.DataSourceName cfg)
           (world (sqlc.store c)) = (None, w1) ->
  DB_QueryContext query w1 = (inr [], w2) ->
  fn k w2 = ((v, opt, Some e), w3) ->
  exists e' c',
    sqlc.Client_Get cfg k (Some fn) c
    = ((false, "", gokv.zeroOption, Some e'), c') /\
    errors_Is e' e = true /\
    sqlc.Cache c' = sqlc.Cache c /\
    accesses (sqlc.store c')
    = (accesses (sqlc.store c)
         ++ [AOpen (sqlc.DriverName cfg) (sqlc.DataSourceName cfg);
             AQuery query; AClose])%list.
Proof.
  intros Hk Hmiss Hp Hx Hopen Hquery Hfn.
  Get_to_query Hk Hmiss Hp Hx Hopen Hquery.
  rewrite Hfn. simpl.
  destruct (DB_Close w3) as [ce w4]. simpl.
  destruct (errors_Is_Append e ce e (errors_Is_refl e)) as (e' & He' & His).
  simpl in He'. rewrite He'. eexists _, _.
  split; [done|]. split; [done|]. split; [done|].
  simpl. by rewrite <- !app_assoc.
Qed.

(** X5.  When the write statement fails, [Set] returns an error that wraps
    the one of the backing store and the cache is as it was: the old entry
    of the key, if any, stays. *)
Theorem Set_exec_error_keeps_cache
    k v fns c option w1 optionData t now w2 query w3 e w4 :
  k <> "" ->
  gokv.OptionFns_Apply fns gokv.zeroOption (world (sqlc.store c))
  = (option, w1) ->
  sqlc.Marshal (sqlc.Codec_ cfg) option = inr optionData ->
  template_Parse (sqlc.SetSQL cfg) = inr t ->
  time_Now w1 = (now, w2) ->
  template_Execute t
    (list_to_map [("Key", k); ("Value", v); ("Option", optionData);
                  ("Time", time_Format now)]) = inr query ->
  sql_Open (sqlc.DriverName cfg) (sqlc.DataSourceName cfg) w2 = (None, w3) ->
  DB_ExecContext query w3 = (inl e, w4) ->
  exists e' c',
    sqlc.Client_Set cfg k v fns c = (Some e', c') /\
    errors_Is e' e = true /\
    sqlc.Cache c' = sqlc.Cache c.
Proof.
  intros Hk Hfns Hm Hp Hnow Hx Hopen Hexec.
  unfold sqlc.Client_Set, util.CheckKeyAndValue, util.CheckKey.
  case_decide; [done|]. unfold_M. simpl in *.
  repeat (first [ rewrite Hfns | rewrite Hm | rewrite Hp | rewrite Hnow
                | rewrite Hx | rewrite Hopen | rewrite Hexec ]; simpl).
  destruct (DB_Close w4) as [ce w5]. simpl.
  destruct (errors_Is_Append e ce e (errors_Is_refl e)) as (e' & He' & His).
  simpl in He'. rewrite He'. by eexists _, _.
Qed.

End sqlc_more.

(** ** The calls an operation makes *)

Section sqlc_calls.
Context {W : Type} `{Driver W}.
Variable cfg : sqlc.Config.

(** The three shapes of what an operation adds to the record of the
    backing-store calls: nothing; an [Open] alone, which failed; an [Open]
    that went well, one statement and the [Close]. *)
Local Abbreviation opened :=
  (AOpen (sqlc.DriverName cfg) (sqlc.DataSourceName cfg)).

Local Abbreviation open_at w :=
  (sql_Open (sqlc.DriverName cfg) (sqlc.DataSourceName cfg) w).

Ltac is_Some_Append :=
  first [ by eauto
        | match goal with
          | |- is_Some (match ?o with _ => _ end) => destruct o; eauto
          end ].

(** Settles one run: no call; or the failed [Open]; or the three calls. *)
Ltac calls_shape :=
  first
    [ exists []; split; [by rewrite app_nil_r|]; left; split; [done|];
      is_Some_Append
    | eexists; split; [by rewrite <- ?app_assoc|]; right; left;
      repeat eexists; eassumption
    | eexists; split; [by rewrite <- ?app_assoc|]; right; right;
      repeat eexists; eassumption ].

Lemma Set_calls k v fns c er c' :
  sqlc.Client_Set cfg k v fns c = (er, c') ->
  exists new,
    accesses (sqlc.store c') = (accesses (sqlc.store c) ++ new)%list /\
    ((new = [] /\ is_Some er) \/
     (exists option w0 now w1 e,
         gokv.OptionFns_Apply fns gokv.zeroOption (world (sqlc.store c))
         = (option, w0) /\
         time_Now w0 = (now, w1) /\
         open_at w1 = (Some e, world (sqlc.store c')) /\
         er = Some e /\ new = [opened]) \/
     (exists option w0 now w1 w2 query,
         gokv.OptionFns_Apply fns gokv.zeroOption (world (sqlc.store c))
         = (option, w0) /\
         time_Now w0 = (now, w1) /\
         open_at w1 = (None, w2) /\
         new = [opened; AExec query; AClose])).
Proof.
  unfold sqlc.Client_Set. unfold_M. simpl. intros Hset.
  run_cases; calls_shape.
Qed.

Lemma Del_calls k c found er c' :
  sqlc.Client_Del cfg k c = ((found, er), c') ->
  exists new,
    accesses (sqlc.store c') = (accesses (sqlc.store c) ++ new)%list /\
    ((new = [] /\ is_Some er) \/
     (exists now w1 e,
         time_Now (world (sqlc.store c)) = (now, w1) /\
         open_at w1 = (Some e, world (sqlc.store c')) /\
         er = Some e /\ new = [opened]) \/
     (exists now w1 w2 query,
         time_Now (world (sqlc.store c)) = (now, w1) /\
         open_at w1 = (None, w2) /\
         new = [opened; AExec query; AClose])).
Proof.
  unfold sqlc.Client_Del. unfold_M. simpl. intros Hdel.
  run_cases; calls_shape.
Qed.

Lemma Keys_calls c keys er c' :
  sqlc.Client_Keys cfg c = ((keys, er), c') ->
  exists new,
    accesses (sqlc.store c') = (accesses (sqlc.store c) ++ new)%list /\
    ((new = [] /\ is_Some er) \/
     (exists e,
         open_at (world (sqlc.store c)) = (Some e, world (sqlc.store c')) /\
         er = Some e /\ new = [opened]) \/
     (exists w2 query,
         open_at (world (sqlc.store c)) = (None, w2) /\
         new = [opened; AQuery query; AClose])).
Proof.
  unfold sqlc.Client_Keys. unfold_M. simpl. intros Hkeys.
  run_cases; calls_shape.
Qed.

(** X6.  Each of [Set], [Del] and [Keys] sends at most one statement to
    the backing store, and closes the connection it opened: what it adds to
    the calls of the backing store is nothing (and it fails); or an [Open]
    alone, and then that [Open], made in the world the operation had
    reached, failed, the operation returns its error and stops there; or
    an [Open] that went well, the one statement and the [Close]. *)
Theorem one_statement_and_close :
  (forall k v fns c er c',
      sqlc.Client_Set cfg k v fns c = (er, c') ->
      exists new,
        accesses (sqlc.store c') = (accesses (sqlc.store c) ++ new)%list /\
        ((new = [] /\ is_Some er) \/
         (exists option w0 now w1 e,
             gokv.OptionFns_Apply fns gokv.zeroOption (world (sqlc.store c))
             = (option, w0) /\
             time_Now w0 = (now, w1) /\
             open_at w1 = (Some e, world (sqlc.store c')) /\
             er = Some e /\ new = [opened]) \/
         (exists option w0 now w1 w2 query,
             gokv.OptionFns_Apply fns gokv.zeroOption (world (sqlc.store c))
             = (option, w0) /\
             time_Now w0 = (now, w1) /\
             open_at w1 = (None, w2) /\
             new = [opened; AExec query; AClose]))) /\
  (forall k c found er c',
      sqlc.Client_Del cfg k c = ((found, er), c') ->
      exists new,
        accesses (sqlc.store c') = (accesses (sqlc.store c) ++ new)%list /\
        ((new = [] /\ is_Some er) \/
         (exists now w1 e,
             time_Now (world (sqlc.store c)) = (now, w1) /\
             open_at w1 = (Some e, world (sqlc.store c')) /\
             er = Some e /\ new = [opened]) \/
         (exists now w1 w2 query,
             time_Now (world (sqlc.store c)) = (now, w1) /\
             open_at w1 = (None, w2) /\
             new = [opened; AExec query; AClose]))) /\
  (forall c keys er c',
      sqlc.Client_Keys cfg c = ((keys, er), c') ->
      exists new,
        accesses (sqlc.store c') = (accesses (sqlc.store c) ++ new)%list /\
        ((new = [] /\ is_Some er) \/
         (exists e,
             open_at (world (sqlc.store c))
             = (Some e, world (sqlc.store c')) /\
             er = Some e /\ new = [opened]) \/
         (exists w2 query,
             open_at (world (sqlc.store c)) = (None, w2) /\
             new = [opened; AQuery query; AClose]))).
Proof.
  split; [|split].
  - apply Set_calls.
  - apply Del_calls.
  - apply Keys_calls.
Qed.

(** X7.  [Set], [Get] and [Del] on a key never touch the cache entry of
    another key. *)
Theorem operations_touch_only_their_key k k' :
  k' <> k ->
  (forall v fns c er c',
      sqlc.Client_Set cfg k v fns c = (er, c') ->
      sqlc.Cache c' !! k' = sqlc.Cache c !! k') /\
  (forall fn c r c',
      sqlc.Client_Get cfg k fn c = (r, c') ->
      sqlc.Cache c' !! k' = sqlc.Cache c !! k') /\
  (forall c r c',
      sqlc.Client_Del cfg k c = (r, c') ->
      sqlc.Cache c' !! k' = sqlc.Cache c !! k').
Proof.
  intros Hne. split; [|split].
  - intros v fns c er c' Hset.
    destruct (Set_cases cfg _ _ _ _ _ _ Hset) as [[_ ->]|(o & t & ->)];
      [done | by rewrite lookup_insert_ne].
  - intros fn c r c' Hget. by apply (Get_frame cfg k fn c r).
  - intros c [found er] c' Hdel.
    destruct (Del_cases cfg _ _ _ _ _ Hdel) as [(_ & _ & ->)|(_ & -> & _)];
      [done | by rewrite lookup_delete_ne].
Qed.

(** X8.  After a [Del] that reports [found = true], the [Get] of that key
    is not served from the cache: with the read template in order, it opens
    a connection to the backing store. *)
Theorem Del_then_Get_reads_store k fn c er c1 t query :
  sqlc.Client_Del cfg k c = ((true, er), c1) ->
  template_Parse (sqlc.GetSQL cfg) = inr t ->
  template_Execute t (list_to_map [("Key", k)]) = inr query ->
  sqlc.Cache c1 !! k = None /\
  exists r c2 rest,
    sqlc.Client_Get cfg k fn c1 = (r, c2) /\
    accesses (sqlc.store c2)
    = (accesses (sqlc.store c1) ++ opened :: rest)%list.
Proof.
  intros Hdel Hp Hx.
  assert (k <> "") as Hk.
  { intros ->. unfold sqlc.Client_Del in Hdel. simpl in Hdel. unfold_M.
    by simplify_eq. }
  destruct (Del_cases cfg _ _ _ _ _ Hdel) as [(? & _)|(_ & Hc & _)]; [done|].
  assert (sqlc.Cache c1 !! k = None) as Hmiss
      by (rewrite Hc; apply lookup_delete_eq).
  split; [done|].
  destruct (sqlc.Client_Get cfg k fn c1) as [r c2] eqn:Hget.
  exists r, c2. revert Hget.
  unfold sqlc.Client_Get, util.CheckKeyAndValue, util.CheckKey.
  case_decide; [done|]. unfold_M. simpl in *. rewrite Hmiss, Hp, Hx.
  intros Hget. run_cases.
  all: try match goal with
           | Hs : sqlc.Client_Set _ _ _ _ _ = _ |- _ =>
               apply Set_calls in Hs as (new & Hs & _); simpl in Hs;
               rewrite Hs
           end.
  all: rewrite <- ?app_assoc; simpl; by eexists.
Qed.

End sqlc_calls.

(** ** Keys *)

Section sqlc_keys.
Context {W : Type} `{Driver W}.
Variable cfg : sqlc.Config.

(** A row without NULL, as the backing store hands it out. *)
Local Abbreviation plain_row :=
  (fun r : string * list string =>
     @inr error Row (Some r.1, Some <$> r.2)).

Lemma mapM_scan_plain (l : list string) :
  mapM (fun c : option string =>
          match scan_string c with
          | inr s => Some s
          | inl _ => None
          end) (Some <$> l) = Some l.
Proof.
  induction l as [|a l IH]; [done|].
  rewrite fmap_cons. cbn [mapM]. simpl. by rewrite IH.
Qed.

Lemma scan_strings_plain (r : string * list string) :
  sqlc.scan_strings (Some r.1, Some <$> r.2) = inr (r.1, r.2).
Proof.
  unfold sqlc.scan_strings. cbn [fst snd scan_string].
  by rewrite mapM_scan_plain.
Qed.

Lemma Keys_rows_plain (data : list (string * list string)) :
  forall results,
    sqlc.Keys_rows (plain_row <$> data) results
    = inr (results ++ data.*1)%list.
Proof.
  induction data as [|r data IH]; intros results; simpl.
  - by rewrite app_nil_r.
  - rewrite scan_strings_plain. simpl. rewrite IH.
    by rewrite <- app_assoc.
Qed.

Lemma Keys_rows_null rows rest :
  inr (None, rest) ∈ rows ->
  forall results, exists e, sqlc.Keys_rows rows results = inl e.
Proof.
  induction rows as [|r rows IH]; intros Hin results.
  - by apply elem_of_nil in Hin.
  - apply elem_of_cons in Hin as [<-|Hin]; simpl; [by eexists|].
    destruct r as [err|row]; [by eexists|].
    destruct (sqlc.scan_strings row) as [err|columns]; [by eexists|].
    by apply IH.
Qed.

(** X9.  When the key query returns rows without NULL, [Keys] returns the
    first column of every row, in the order of the rows; its error is what
    the release of the connection returned, and the cache is not touched. *)
Theorem Keys_returns_first_columns c t query w1 data w2 ce w3 :
  template_Parse (sqlc.KeysSQL cfg) = inr t ->
  template_Execute t ∅ = inr query ->
  sql_Open (sqlc.DriverName cfg) (sqlc.DataSourceName cfg)
           (world (sqlc.store c)) = (None, w1) ->
  DB_QueryContext query w1 = (inr (plain_row <$> data), w2) ->
  DB_Close w2 = (ce, w3) ->
  sqlc.Client_Keys cfg c
  = ((data.*1, ce),
     sqlc.mkClient (sqlc.Cache c)
       (mkStore w3
          (accesses (sqlc.store c)
             ++ [AOpen (sqlc.DriverName cfg) (sqlc.DataSourceName cfg);
                 AQuery query; AClose])%list)).
Proof.
  intros Hp Hx Hopen Hquery Hclose.
  unfold sqlc.Client_Keys. unfold_M. rewrite Hp, Hx. simpl.
  rewrite Hopen. simpl. rewrite Hquery. simpl.
  rewrite Keys_rows_plain. simpl. rewrite Hclose. simpl.
  by rewrite <- !app_assoc.
Qed.

(** X10.  [Keys] scans into plain strings: when a returned row has a NULL
    key, [Keys] fails, and it returns no key at all rather than the keys of
    the other rows. *)
Theorem Keys_null_key_fails c t query w1 rows rest w2 :
  template_Parse (sqlc.KeysSQL cfg) = inr t ->
  template_Execute t ∅ = inr query ->
  sql_Open (sqlc.DriverName cfg) (sqlc.DataSourceName cfg)
           (world (sqlc.store c)) = (None, w1) ->
  DB_QueryContext query w1 = (inr rows, w2) ->
  inr (None, rest) ∈ rows ->
  exists e c',
    sqlc.Client_Keys cfg c = (([], Some e), c') /\
    sqlc.Cache c' = sqlc.Cache c.
Proof.
  intros Hp Hx Hopen Hquery Hnull.
  unfold sqlc.Client_Keys. unfold_M. rewrite Hp, Hx. simpl.
  rewrite Hopen. simpl. rewrite Hquery. simpl.
  destruct (Keys_rows_null rows rest Hnull []) as [e ->]. simpl.
  destruct (DB_Close w2) as [[ce|] w3]; simpl; by eexists _, _.
Qed.

(** ** Refresh and the keys of the cache *)

(** Whatever [Refresh] does, it caches no key that was not cached. *)
Lemma Refresh_dom range c r c' :
  (forall l, range l ≡ₚ l) ->
  sqlc.Client_Refresh cfg range c = (r, c') ->
  forall k, is_Some (sqlc.Cache c' !! k) -> is_Some (sqlc.Cache c !! k).
Proof.
  intros Hperm Hre k Hsome. unfold sqlc.Client_Refresh in Hre. unfold_M.
  destruct (sqlc.Client_Keys cfg c) as [[live err] c0] eqn:Hkeys.
  pose proof (Keys_cache cfg _ _ _ Hkeys) as Hc0.
  destruct err as [err|]; [by simplify_eq; rewrite <- Hc0|].
  simpl in Hre.
  destruct (sqlc.Refresh_sweep (sqlc.Refresh_keysMap live)
              (range (map_to_list (sqlc.Cache c0)).*1) [] c0)
    as [cacheKeys c1] eqn:Hsweep.
  apply Refresh_sweep_spec in Hsweep as (Hs1 & Hck & Hc1).
  simpl in Hck. rewrite Hc0 in Hck. rewrite Hc0 in Hc1.
  destruct (range_keys range (sqlc.Cache c) Hperm) as [_ Hin].
  destruct (decide (k ∈ cacheKeys)) as [Hk|Hk].
  - rewrite Hck in Hk. apply list_elem_of_filter in Hk as [_ Hk].
    by apply Hin.
  - rewrite (Refresh_refetch_frame cfg cacheKeys c1 r c' k Hre Hk) in Hsome.
    rewrite Hc1 in Hsome. case_decide; [by destruct Hsome | done].
Qed.

(** X11.  On an empty cache [Refresh] only lists the keys: it returns what
    [Keys] returns as error and leaves the client as [Keys] leaves it; no
    live key is fetched, the cache stays empty. *)
Theorem Refresh_empty_cache range c :
  (forall l, range l ≡ₚ l) ->
  sqlc.Cache c = ∅ ->
  sqlc.Client_Refresh cfg range c
  = ((sqlc.Client_Keys cfg c).1.2, (sqlc.Client_Keys cfg c).2) /\
  sqlc.Cache (sqlc.Client_Refresh cfg range c).2 = ∅.
Proof.
  intros Hperm Hempty.
  assert (sqlc.Client_Refresh cfg range c
          = ((sqlc.Client_Keys cfg c).1.2, (sqlc.Client_Keys cfg c).2)) as Heq.
  { unfold sqlc.Client_Refresh. unfold_M.
    destruct (sqlc.Client_Keys cfg c) as [[live err] c0] eqn:Hkeys.
    pose proof (Keys_cache cfg _ _ _ Hkeys) as Hc0.
    destruct err as [err|]; [done|]. simpl.
    rewrite Hc0, Hempty, map_to_list_empty. simpl.
    assert (range [] = []) as ->
        by (apply Permutation_nil_r; apply Hperm).
    reflexivity. }
  split; [done|]. rewrite Heq. simpl.
  destruct (sqlc.Client_Keys cfg c) as [r c0] eqn:Hkeys. simpl.
  by rewrite (Keys_cache cfg _ _ _ Hkeys).
Qed.

(** X12.  The background refresh never adds a key: after any number of
    ticks, whatever the cycles met, every cached key was cached before. *)
Theorem tickerRefresh_never_adds_keys ranges :
  Forall (fun range : list string -> list string =>
            forall l, range l ≡ₚ l) ranges ->
  forall c c',
    sqlc.tickerRefresh cfg ranges c = (tt, c') ->
    forall k, is_Some (sqlc.Cache c' !! k) -> is_Some (sqlc.Cache c !! k).
Proof.
  induction 1 as [|range ranges Hperm _ IH]; intros c c' Hticks k Hsome.
  - simpl in Hticks. unfold_M. by simplify_eq.
  - cbn [sqlc.tickerRefresh] in Hticks. unfold_M.
    destruct (sqlc.Client_Refresh cfg range c) as [r c1] eqn:Hre.
    apply (Refresh_dom range c r c1 Hperm Hre).
    by apply (IH c1 c').
Qed.

End sqlc_keys.

(** ** The stamps of the cache, over all operations *)

Section sqlc_stamps.
Context {W : Type} `{Driver W}.
Variable cfg : sqlc.Config.
Variable clock : W -> Time.
Hypothesis laws : ClockLaws clock.

(** X13.  On a clock that does not run backwards, no cache entry is ever
    stamped in the future: this holds of a new client, and [Set], [Get],
    [Del] and [Refresh] keep it, whatever they return, as long as the
    mutators and the hook they are handed do not set the clock back. *)
Theorem operations_keep_stamps :
  (forall s, sqlc.stamps_ok clock (sqlc.NewClient s)) /\
  (forall c, sqlc.stamps_ok clock c ->
     (forall k v fns er c',
         Forall (fun f : gokv.OptionFn =>
                   forall o w o' w', f o w = (o', w') -> clock w <= clock w')
                fns ->
         sqlc.Client_Set cfg k v fns c = (er, c') ->
         sqlc.stamps_ok clock c') /\
     (forall k fn r c',
         (forall g, fn = Some g ->
            forall k w r w', g k w = (r, w') -> clock w <= clock w') ->
         sqlc.Client_Get cfg k fn c = (r, c') ->
         sqlc.stamps_ok clock c') /\
     (forall k r c',
         sqlc.Client_Del cfg k c = (r, c') -> sqlc.stamps_ok clock c') /\
     (forall range r c',
         sqlc.Client_Refresh cfg range c = (r, c') ->
         sqlc.stamps_ok clock c')).
Proof.
  split; [apply NewClient_stamps|].
  intros c Hok. repeat split.
  - intros k v fns er c' Hfns Hset.
    apply (steps_stamps clock c); [|done]. by eapply Set_steps.
  - intros k fn r c' Hfn Hget.
    apply (steps_stamps clock c); [|done]. by eapply Get_steps.
  - intros k r c' Hdel.
    apply (steps_stamps clock c); [|done]. by eapply Del_steps.
  - intros range r c' Hre. by eapply Refresh_stamps.
Qed.

End sqlc_stamps.

(** ** store.go and pkg/util *)

Section options_more.
Context {W : Type} `{Driver W}.

Lemma gokv_OptionFns_Apply_app (fns1 fns2 : gokv.OptionFns)
    (o : gokv.Option) (w : W) :
  gokv.OptionFns_Apply (fns1 ++ fns2)%list o w
  = let '(o1, w1) := gokv.OptionFns_Apply fns1 o w in
    gokv.OptionFns_Apply fns2 o1 w1.
Proof.
  revert o w. induction fns1 as [|f fns1 IH]; intros o w; simpl; [done|].
  destruct (f o w) as [o' w']. apply IH.
Qed.

(** X14.  [Apply(v)] as the last mutator wins: whatever the mutators before
    it did to the option, the option built is [v]; the world is as those
    mutators left it.  So with both kinds of option. *)
Theorem Apply_last_wins :
  (forall (fns : gokv.OptionFns) v o (w : W),
      gokv.OptionFns_Apply (fns ++ [gokv.Apply v])%list o w
      = (v, (gokv.OptionFns_Apply fns o w).2)) /\
  (forall (fns : gokv_any.OptionFns) v o (w : W),
      gokv_any.OptionFns_Apply (fns ++ [gokv_any.Apply v])%list o w
      = (v, (gokv_any.OptionFns_Apply fns o w).2)).
Proof.
  split; intros fns v o w.
  - rewrite gokv_OptionFns_Apply_app.
    by destruct (gokv.OptionFns_Apply fns o w).
  - rewrite OptionFns_Apply_app.
    by destruct (gokv_any.OptionFns_Apply fns o w).
Qed.

End options_more.

(** X15.  [CheckKeyAndValue] checks the key only: it fails, with
    [ErrEmptyKey], exactly on the empty key; no value is ever refused, a
    nil one included. *)
Theorem CheckKeyAndValue_checks_only_key (V : Type) (k : string) (v : V) :
  (k = "" -> util.CheckKeyAndValue k v = Some ErrEmptyKey) /\
  (k <> "" -> util.CheckKeyAndValue k v = None) /\
  util.CheckKeyAndValue k v = util.CheckKey k.
Proof.
  unfold util.CheckKeyAndValue, util.CheckKey, util.CheckVal.
  case_decide; repeat split; done.
Qed.

(** * The client without a cache *)

Section direct_more.
Context {W : Type} `{Driver W} {V : Type}.
Variable c : sqlc_direct.Client V.

(** X16.  There, [Del] reports what the statement affected: when the
    statement executes and affects [n] rows, [Del] returns
    [(n > 0, nil)], also when the release of the connection fails; so a
    second [Del] of a key, which affects no row, returns [(false, nil)]. *)
Theorem direct_Del_reports_rows_affected k s t query w1 result n w2 ce w3 :
  k <> "" ->
  template_Parse (sqlc_direct.DeleteSQL c) = inr t ->
  template_Execute t (list_to_map [("Key", k)]) = inr query ->
  sql_Open (sqlc_direct.DriverName c) (sqlc_direct.DataSourceName c)
           (world s) = (None, w1) ->
  DB_ExecContext query w1 = (inr result, w2) ->
  RowsAffected result = inr n ->
  DB_Close w2 = (ce, w3) ->
  sqlc_direct.Client_Del c k s
  = ((bool_decide (0 < n), None),
     mkStore w3
       (accesses s
          ++ [AOpen (sqlc_direct.DriverName c) (sqlc_direct.DataSourceName c);
              AExec query; AClose])%list).
Proof.
  intros Hk Hp Hx Hopen Hexec Hrows Hclose.
  unfold sqlc_direct.Client_Del, util.CheckKey.
  case_decide; [done|]. unfold_M. simpl in *.
  repeat (first [ rewrite Hp | rewrite Hx | rewrite Hopen | rewrite Hexec
                | rewrite Hclose | rewrite Hrows ]; simpl).
  by rewrite <- !app_assoc.
Qed.

(** X17.  There, [Set] returns the error of the statement and nothing
    else: what the release of the connection returns is dropped, so [Set]
    returns nil whenever the statement executes. *)
Theorem direct_Set_returns_statement_error
    k v fns s data option s1 optionData t now w2 query w3 r w4 ce w5 :
  k <> "" ->
  sqlc_direct.Marshal (sqlc_direct.Codec_ c) v = inr data ->
  sqlc_direct.Set_option fns s = (option, s1) ->
  sqlc_direct.MarshalOption (sqlc_direct.Codec_ c) option = inr optionData ->
  template_Parse (sqlc_direct.SetSQL c) = inr t ->
  time_Now (world s1) = (now, w2) ->
  template_Execute t
    (list_to_map [("Key", k); ("Value", data); ("Option", optionData);
                  ("Time", time_Format now)]) = inr query ->
  sql_Open (sqlc_direct.DriverName c) (sqlc_direct.DataSourceName c) w2
  = (None, w3) ->
  DB_ExecContext query w3 = (r, w4) ->
  DB_Close w4 = (ce, w5) ->
  sqlc_direct.Client_Set c k v fns s
  = (match r with inl e => Some e | inr _ => None end,
     mkStore w5
       (accesses s1
          ++ [AOpen (sqlc_direct.DriverName c) (sqlc_direct.DataSourceName c);
              AExec query; AClose])%list).
Proof.
  intros Hk Hm Ho Hmo Hp Hnow Hx Hopen Hexec Hclose.
  unfold sqlc_direct.Client_Set, util.CheckKeyAndValue, util.CheckKey.
  case_decide; [done|]. unfold_M. simpl in *.
  rewrite Hm. simpl. rewrite Ho. simpl.
  repeat (first [ rewrite Hmo | rewrite Hp | rewrite Hnow | rewrite Hx
                | rewrite Hopen | rewrite Hexec | rewrite Hclose ]; simpl).
  by rewrite <- !app_assoc.
Qed.

(** X18.  There, [Keys] returns the first column of every row when no row
    has a NULL, in the order of the rows, and a nil error also when the
    release of the connection fails. *)
Theorem direct_Keys_returns_first_columns
    s t query w1 (data : list (string * list string)) w2 ce w3 :
  template_Parse (sqlc_direct.KeysSQL c) = inr t ->
  template_Execute t ∅ = inr query ->
  sql_Open (sqlc_direct.DriverName c) (sqlc_direct.DataSourceName c)
           (world s) = (None, w1) ->
  DB_QueryContext query w1
  = (inr ((fun r : string * list string =>
             @inr error Row (Some r.1, Some <$> r.2)) <$> data), w2) ->
  DB_Close w2 = (ce, w3) ->
  sqlc_direct.Client_Keys c s
  = ((data.*1, None),
     mkStore w3
       (accesses s
          ++ [AOpen (sqlc_direct.DriverName c) (sqlc_direct.DataSourceName c);
              AQuery query; AClose])%list).
Proof.
  intros Hp Hx Hopen Hquery Hclose.
  unfold sqlc_direct.Client_Keys. unfold_M. rewrite Hp, Hx. simpl.
  rewrite Hopen. simpl. rewrite Hquery. simpl. rewrite Hclose. simpl.
  rewrite Keys_rows_plain. simpl. by rewrite <- !app_assoc.
Qed.

(** X19.  There, one row for the key: [Get] decodes the value column into
    the value and the second column into the option, and returns
    [(true, option, nil)]; nothing is written to the backing store. *)
Theorem direct_Get_one_row k v fn s t query w1 r w2 v' o ce w3 :
  k <> "" ->
  template_Parse (sqlc_direct.GetSQL c) = inr t ->
  template_Execute t (list_to_map [("Key", k)]) = inr query ->
  sql_Open (sqlc_direct.DriverName c) (sqlc_direct.DataSourceName c)
           (world s) = (None, w1) ->
  DB_QueryContext query w1 = (inr [r], w2) ->
  sqlc_direct.Get_row c r v gokv_any.zeroOption = inr (v', o) ->
  DB_Close w2 = (ce, w3) ->
  sqlc_direct.Client_Get c k v fn s
  = ((true, o, None, v'),
     mkStore w3
       (accesses s
          ++ [AOpen (sqlc_direct.DriverName c) (sqlc_direct.DataSourceName c);
              AQuery query; AClose])%list).
Proof.
  intros Hk Hp Hx Hopen Hquery Hrow Hclose.
  unfold sqlc_direct.Client_Get, util.CheckKeyAndValue, util.CheckKey.
  case_decide; [done|]. unfold_M. simpl in *.
  repeat (first [ rewrite Hp | rewrite Hx | rewrite Hopen
                | rewrite Hquery ]; simpl).
  rewrite Hrow. simpl. rewrite Hclose. simpl.
  rewrite <- !app_assoc. by destruct fn.
Qed.

End direct_more.

(** * The caching client with plain string values *)

Ltac unfold_P :=
  unfold mbind, mret, sqlc_plain.M_bind, sqlc_plain.M_ret,
    sqlc_plain.on_store, sqlc_plain.config, sqlc_plain.cache_get,
    sqlc_plain.cache_put, sqlc_plain.cache_delete,
    store_Now, store_Open, store_Close, store_Query, store_Exec in *.

Lemma Default_set s d : s <> "" -> sqlc_plain.Default s d = s.
Proof. intros Hs. unfold sqlc_plain.Default. by case_decide. Qed.

Lemma Default_nonempty s d : d <> "" -> sqlc_plain.Default s d <> "".
Proof. intros Hd. unfold sqlc_plain.Default. by case_decide. Qed.

Lemma Default_idem s d :
  sqlc_plain.Default (sqlc_plain.Default s d) d = sqlc_plain.Default s d.
Proof. unfold sqlc_plain.Default. repeat case_decide; congruence. Qed.

Lemma DefaultDuration_idem s d :
  sqlc_plain.DefaultDuration (sqlc_plain.DefaultDuration s d) d
  = sqlc_plain.DefaultDuration s d.
Proof. unfold sqlc_plain.DefaultDuration. repeat case_decide; congruence. Qed.

(** The six assignments of [NewClient], field by field. *)
Lemma NewClient_Config_fields (c : sqlc_plain.Config) :
  sqlc_plain.NewClient_Config c
  = sqlc_plain.mkConfig
      (sqlc_plain.Default (sqlc_plain.DriverName c) "mysql")
      (sqlc_plain.DataSourceName c)
      (sqlc_plain.Default (sqlc_plain.KeysSQL c)
         (sqlc_plain.KeysSQL (sqlc_plain.NewClient_Config
            (sqlc_plain.mkConfig "" "" "" "" "" "" 0))))
      (sqlc_plain.Default (sqlc_plain.GetSQL c)
         (sqlc_plain.GetSQL (sqlc_plain.NewClient_Config
            (sqlc_plain.mkConfig "" "" "" "" "" "" 0))))
      (sqlc_plain.Default (sqlc_plain.SetSQL c)
         (sqlc_plain.SetSQL (sqlc_plain.NewClient_Config
            (sqlc_plain.mkConfig "" "" "" "" "" "" 0))))
      (sqlc_plain.Default (sqlc_plain.DeleteSQL c)
         (sqlc_plain.DeleteSQL (sqlc_plain.NewClient_Config
            (sqlc_plain.mkConfig "" "" "" "" "" "" 0))))
      (sqlc_plain.DefaultDuration (sqlc_plain.RefreshInterval c)
         (60 * sqlc_plain.time_Second)).
Proof. destruct c. reflexivity. Qed.

(** The default templates are not empty. *)
Lemma default_templates :
  let d := sqlc_plain.NewClient_Config
             (sqlc_plain.mkConfig "" "" "" "" "" "" 0) in
  sqlc_plain.KeysSQL d <> "" /\ sqlc_plain.GetSQL d <> "" /\
  sqlc_plain.SetSQL d <> "" /\ sqlc_plain.DeleteSQL d <> "".
Proof. vm_compute. repeat split; discriminate. Qed.

Ltac Config_fields :=
  rewrite !NewClient_Config_fields;
  cbn [sqlc_plain.DriverName sqlc_plain.DataSourceName sqlc_plain.KeysSQL
       sqlc_plain.GetSQL sqlc_plain.SetSQL sqlc_plain.DeleteSQL
       sqlc_plain.RefreshInterval].

(** X21.  [NewClient] completes the configuration: afterwards no template
    and no driver name is empty and the refresh interval is not zero; a
    field that was set keeps its value, the data source name is never
    touched, and completing twice is completing once. *)
Theorem NewClient_Config_complete (c : sqlc_plain.Config) :
  let c' := sqlc_plain.NewClient_Config c in
  (sqlc_plain.DriverName c' <> "" /\ sqlc_plain.KeysSQL c' <> "" /\
   sqlc_plain.GetSQL c' <> "" /\ sqlc_plain.SetSQL c' <> "" /\
   sqlc_plain.DeleteSQL c' <> "" /\ sqlc_plain.RefreshInterval c' <> 0) /\
  ((sqlc_plain.DriverName c <> "" ->
    sqlc_plain.DriverName c' = sqlc_plain.DriverName c) /\
   (sqlc_plain.KeysSQL c <> "" ->
    sqlc_plain.KeysSQL c' = sqlc_plain.KeysSQL c) /\
   (sqlc_plain.GetSQL c <> "" ->
    sqlc_plain.GetSQL c' = sqlc_plain.GetSQL c) /\
   (sqlc_plain.SetSQL c <> "" ->
    sqlc_plain.SetSQL c' = sqlc_plain.SetSQL c) /\
   (sqlc_plain.DeleteSQL c <> "" ->
    sqlc_plain.DeleteSQL c' = sqlc_plain.DeleteSQL c) /\
   (sqlc_plain.RefreshInterval c <> 0 ->
    sqlc_plain.RefreshInterval c' = sqlc_plain.RefreshInterval c)) /\
  sqlc_plain.DataSourceName c' = sqlc_plain.DataSourceName c /\
  sqlc_plain.NewClient_Config c' = c'.
Proof.
  cbv zeta. destruct default_templates as (Hks & Hgs & Hss & Hds).
  rewrite (NewClient_Config_fields (sqlc_plain.NewClient_Config c)).
  rewrite (NewClient_Config_fields c).
  cbn [sqlc_plain.DriverName sqlc_plain.DataSourceName sqlc_plain.KeysSQL
       sqlc_plain.GetSQL sqlc_plain.SetSQL sqlc_plain.DeleteSQL
       sqlc_plain.RefreshInterval].
  split; [|split; [|split]].
  - repeat split; try (by apply Default_nonempty).
    unfold sqlc_plain.DefaultDuration, sqlc_plain.time_Second.
    case_decide; [lia | done].
  - repeat split; try apply Default_set.
    intros Hri. unfold sqlc_plain.DefaultDuration. by case_decide.
  - done.
  - by rewrite !Default_idem, DefaultDuration_idem.
Qed.

Section plain_properties.
Context {W : Type} `{Driver W}.

(** [del] touches neither the cache nor the configuration. *)
Lemma plain_del_keeps k (c : sqlc_plain.Client W) r c' :
  sqlc_plain.Client_del k c = (r, c') ->
  sqlc_plain.cache c' = sqlc_plain.cache c /\
  sqlc_plain.Config_ c' = sqlc_plain.Config_ c.
Proof.
  unfold sqlc_plain.Client_del. unfold_P. simpl. intros Hdel.
  run_cases; done.
Qed.

Lemma plain_Del_runs k (c : sqlc_plain.Client W) :
  exists c',
    sqlc_plain.Client_Del k c = (None, c') /\
    sqlc_plain.cache c' = delete k (sqlc_plain.cache c) /\
    sqlc_plain.Config_ c' = sqlc_plain.Config_ c.
Proof.
  unfold sqlc_plain.Client_Del.
  unfold mbind, mret, sqlc_plain.M_bind, sqlc_plain.M_ret,
    sqlc_plain.cache_delete.
  destruct (sqlc_plain.Client_del k
              (sqlc_plain.mkClient (sqlc_plain.Config_ c)
                 (delete k (sqlc_plain.cache c)) (sqlc_plain.store c)))
    as [r c'] eqn:Hdel.
  apply plain_del_keeps in Hdel as [Hc Hcfg]. by exists c'.
Qed.

(** X22.  [Del] always returns nil and always evicts: whatever the backing
    store answers to the delete statement (the error is only logged), the
    entry of the key is gone from the cache, the other entries and the
    configuration are as they were. *)
Theorem plain_Del_always_nil_and_evicts k (c : sqlc_plain.Client W) :
  exists c',
    sqlc_plain.Client_Del k c = (None, c') /\
    sqlc_plain.cache c' = delete k (sqlc_plain.cache c) /\
    sqlc_plain.Config_ c' = sqlc_plain.Config_ c /\
    forall k', k' <> k ->
               sqlc_plain.cache c' !! k' = sqlc_plain.cache c !! k'.
Proof.
  destruct (plain_Del_runs k c)
    as (c' & Hdel & Hc & Hcfg).
  exists c'. repeat split; try done.
  intros k' Hne. rewrite Hc. by apply lookup_delete_ne.
Qed.

(** A [Set] that returns nil has written the entry of its key. *)
Lemma plain_Set_nil_cached k v (c : sqlc_plain.Client W) c' :
  sqlc_plain.Client_Set k v c = (None, c') ->
  exists now,
    sqlc_plain.cache c'
    = <[k := sqlc_plain.mkCacheValue v now]> (sqlc_plain.cache c).
Proof.
  unfold sqlc_plain.Client_Set. unfold_P. simpl. intros Hset.
  run_cases; use_Append_None.
  all: try (match goal with
            | Hm : match ?o with _ => _ end = None |- _ =>
                destruct o; discriminate
            end).
  by eexists.
Qed.

(** X23.  [Set], then [Get]: for every key, the empty one included (this
    client does not check the key), if [Set(k, v)] returns nil then the
    [Get(k)] that follows returns [(true, v, nil)] from the cache and
    leaves the client as it is. *)
Theorem plain_Set_then_Get k v (c : sqlc_plain.Client W) c' :
  sqlc_plain.Client_Set k v c = (None, c') ->
  sqlc_plain.Client_Get k c' = ((true, v, None), c').
Proof.
  intros Hset. destruct (plain_Set_nil_cached _ _ _ _ Hset) as [now Hc].
  unfold sqlc_plain.Client_Get. unfold_P.
  rewrite Hc, lookup_insert_eq. reflexivity.
Qed.

(** X24.  [Del], then [Get]: after a [Del] the key is read from the
    backing store again; when the store has no row for it, [Get] returns
    [found = false] with the empty value, its error being what the release
    of the connection returned. *)
Theorem plain_Del_then_Get_absent k (c : sqlc_plain.Client W)
    t query w1 w2 ce w3 :
  let c1 := (sqlc_plain.Client_Del k c).2 in
  template_Parse (sqlc_plain.GetSQL (sqlc_plain.Config_ c)) = inr t ->
  template_Execute t (list_to_map [("Key", k)]) = inr query ->
  sql_Open (sqlc_plain.DriverName (sqlc_plain.Config_ c))
           (sqlc_plain.DataSourceName (sqlc_plain.Config_ c))
           (world (sqlc_plain.store c1)) = (None, w1) ->
  DB_QueryContext query w1 = (inr [], w2) ->
  DB_Close w2 = (ce, w3) ->
  sqlc_plain.Client_Get k c1
  = ((false, "", ce),
     sqlc_plain.mkClient (sqlc_plain.Config_ c)
       (delete k (sqlc_plain.cache c))
       (mkStore w3
          (accesses (sqlc_plain.store c1)
             ++ [AOpen (sqlc_plain.DriverName (sqlc_plain.Config_ c))
                       (sqlc_plain.DataSourceName (sqlc_plain.Config_ c));
                 AQuery query; AClose])%list)).
Proof.
  intros c1 Hp Hx Hopen Hquery Hclose.
  destruct (plain_Del_runs k c)
    as (c' & Hdel & Hc & Hcfg).
  subst c1. rewrite Hdel in *. simpl in *.
  unfold sqlc_plain.Client_Get. unfold_P. simpl.
  rewrite Hc, lookup_delete_eq, Hcfg, Hp, Hx. simpl.
  rewrite Hopen. simpl. rewrite Hquery. simpl. rewrite Hclose. simpl.
  by rewrite Hc, Hcfg, <- !app_assoc.
Qed.

End plain_properties.

(** * More runs on the scripted store *)

(** X1 on a run: a fresh client, no row. *)
Lemma Get_absent_without_hook_witness :
  exists ce w3,
    sqlc.Client_Get config "k" None (reading (inr []))
    = ((false, "", gokv.zeroOption, ce),
       sqlc.mkClient (sqlc.Cache (reading (inr [])))
         (mkStore w3
            (accesses (sqlc.store (reading (inr [])))
               ++ [AOpen (sqlc.DriverName config) (sqlc.DataSourceName config);
                   AQuery "get|k|||"; AClose])%list)).
Proof.
  eexists _, _.
  eapply (Get_absent_without_hook config "k" (reading (inr [])));
    [done | reflexivity ..].
Defined.

(** X2 on a run: one row of two columns. *)
Lemma Get_read_through_then_hit_witness :
  exists er c',
    sqlc.Client_Get config "k" None (reading (inr [row2 "v1" "{0}"]))
    = ((true, "v1", gokv.zeroOption, er), c') /\
    (exists now,
        sqlc.Cache c'
        = <["k" := sqlc.mkCacheValue "v1" gokv.zeroOption now]>
            (sqlc.Cache (reading (inr [row2 "v1" "{0}"])))) /\
    forall fn',
      sqlc.Client_Get config "k" fn' c'
      = ((true, "v1", gokv.zeroOption, None), c').
Proof.
  eapply (Get_read_through_then_hit config "k" None
            (reading (inr [row2 "v1" "{0}"])));
    [done | reflexivity ..].
Defined.

(** X3 on a run: the read fails. *)
Lemma Get_query_error_returned_witness :
  exists e' c',
    sqlc.Client_Get config "k" None (reading (inl busy))
    = ((false, "", gokv.zeroOption, Some e'), c') /\
    errors_Is e' busy = true /\
    sqlc.Cache c' = sqlc.Cache (reading (inl busy)).
Proof.
  eapply (Get_query_error_returned config "k" None (reading (inl busy)));
    [done | reflexivity ..].
Defined.

(** X4 on a run: no row, and the hook fails. *)
Lemma Get_hook_error_not_persisted_witness :
  exists e' c',
    sqlc.Client_Get config "k" (Some failing_hook) (reading (inr []))
    = ((false, "", gokv.zeroOption, Some e'), c') /\
    errors_Is e' busy = true /\
    sqlc.Cache c' = sqlc.Cache (reading (inr [])) /\
    accesses (sqlc.store c')
    = (accesses (sqlc.store (reading (inr [])))
         ++ [AOpen (sqlc.DriverName config) (sqlc.DataSourceName config);
             AQuery "get|k|||"; AClose])%list.
Proof.
  eapply (Get_hook_error_not_persisted config "k" failing_hook
            (reading (inr [])));
    [done | reflexivity ..].
Defined.

(** X5 on a run: the statement fails. *)
Lemma Set_exec_error_keeps_cache_witness :
  exists e' c',
    sqlc.Client_Set config "k" "v" [] fresh_write_fails = (Some e', c') /\
    errors_Is e' busy = true /\
    sqlc.Cache c' = sqlc.Cache fresh_write_fails.
Proof.
  eapply (Set_exec_error_keeps_cache config "k" "v" [] fresh_write_fails);
    [done | reflexivity ..].
Defined.

(** X6 on a run: [Set] on a fresh client. *)
Lemma one_statement_and_close_witness :
  exists new,
    accesses (sqlc.store (sqlc.Client_Set config "k" "v" [] fresh).2)
    = (accesses (sqlc.store fresh) ++ new)%list /\
    ((new = [] /\ is_Some (sqlc.Client_Set config "k" "v" [] fresh).1) \/
     (exists option w0 now w1 e,
         gokv.OptionFns_Apply [] gokv.zeroOption (world (sqlc.store fresh))
         = (option, w0) /\
         time_Now w0 = (now, w1) /\
         sql_Open (sqlc.DriverName config) (sqlc.DataSourceName config) w1
         = (Some e,
            world (sqlc.store (sqlc.Client_Set config "k" "v" [] fresh).2)) /\
         (sqlc.Client_Set config "k" "v" [] fresh).1 = Some e /\
         new = [AOpen (sqlc.DriverName config) (sqlc.DataSourceName config)])
     \/
     (exists option w0 now w1 w2 query,
         gokv.OptionFns_Apply [] gokv.zeroOption (world (sqlc.store fresh))
         = (option, w0) /\
         time_Now w0 = (now, w1) /\
         sql_Open (sqlc.DriverName config) (sqlc.DataSourceName config) w1
         = (None, w2) /\
         new = [AOpen (sqlc.DriverName config) (sqlc.DataSourceName config);
                AExec query; AClose])).
Proof.
  apply (proj1 (one_statement_and_close config) "k" "v" [] fresh).
  by destruct (sqlc.Client_Set config "k" "v" [] fresh).
Defined.

(** X7 at two keys. *)
Lemma operations_touch_only_their_key_witness :
  (forall v fns (c : sqlc.Client World) er c',
      sqlc.Client_Set config "k" v fns c = (er, c') ->
      sqlc.Cache c' !! "j" = sqlc.Cache c !! "j") /\
  (forall fn (c : sqlc.Client World) r c',
      sqlc.Client_Get config "k" fn c = (r, c') ->
      sqlc.Cache c' !! "j" = sqlc.Cache c !! "j") /\
  (forall (c : sqlc.Client World) r c',
      sqlc.Client_Del config "k" c = (r, c') ->
      sqlc.Cache c' !! "j" = sqlc.Cache c !! "j").
Proof. apply (operations_touch_only_their_key config "k" "j"). done. Defined.

(** X8 on a run: ["k"] is cached, deleted, then read. *)
Lemma Del_then_Get_reads_store_witness :
  sqlc.Cache (sqlc.Client_Del config "k" cached_del_get).2 !! "k" = None /\
  exists r c2 rest,
    sqlc.Client_Get config "k" None
      (sqlc.Client_Del config "k" cached_del_get).2 = (r, c2) /\
    accesses (sqlc.store c2)
    = (accesses (sqlc.store (sqlc.Client_Del config "k" cached_del_get).2)
         ++ AOpen (sqlc.DriverName config) (sqlc.DataSourceName config)
         :: rest)%list.
Proof.
  eapply (Del_then_Get_reads_store config "k" None cached_del_get None);
    [vm_compute; reflexivity | reflexivity ..].
Defined.

(** X9 on a run: two rows of one column. *)
Lemma Keys_returns_first_columns_witness :
  exists ce w3,
    sqlc.Client_Keys config (reading (inr [row1 "A"; row1 "C"]))
    = ((["A"; "C"], ce),
       sqlc.mkClient (sqlc.Cache (reading (inr [row1 "A"; row1 "C"])))
         (mkStore w3
            (accesses (sqlc.store (reading (inr [row1 "A"; row1 "C"])))
               ++ [AOpen (sqlc.DriverName config) (sqlc.DataSourceName config);
                   AQuery "keys||||"; AClose])%list)).
Proof.
  eexists _, _.
  eapply (Keys_returns_first_columns config
            (reading (inr [row1 "A"; row1 "C"])) _ _ _
            [("A", []); ("C", [])]);
    reflexivity.
Defined.

(** X10 on a run: the second row has a NULL key. *)
Lemma Keys_null_key_fails_witness :
  exists e c',
    sqlc.Client_Keys config (reading (inr [row1 "A"; inr (None, [])]))
    = (([], Some e), c') /\
    sqlc.Cache c' = sqlc.Cache (reading (inr [row1 "A"; inr (None, [])])).
Proof.
  eapply (Keys_null_key_fails config
            (reading (inr [row1 "A"; inr (None, [])])) _ _ _ _ []);
    [reflexivity .. | right; left].
Defined.

(** X11 on a run: nothing is cached, two keys are live. *)
Lemma Refresh_empty_cache_witness :
  sqlc.Client_Refresh config range_id (reading (inr [row1 "A"; row1 "C"]))
  = ((sqlc.Client_Keys config (reading (inr [row1 "A"; row1 "C"]))).1.2,
     (sqlc.Client_Keys config (reading (inr [row1 "A"; row1 "C"]))).2) /\
  sqlc.Cache
    (sqlc.Client_Refresh config range_id
       (reading (inr [row1 "A"; row1 "C"]))).2 = ∅.
Proof.
  apply (Refresh_empty_cache config range_id
           (reading (inr [row1 "A"; row1 "C"])));
    [exact range_id_perm | reflexivity].
Defined.

(** X12 on a run: two ticks on the cache with [A] and [B]; [C] is live and
    is not cached afterwards. *)
Lemma tickerRefresh_never_adds_keys_witness :
  sqlc.Cache (sqlc.tickerRefresh config [range_id; range_id] live_A_C).2
    !! "C" = None.
Proof.
  destruct (sqlc.Cache
              (sqlc.tickerRefresh config [range_id; range_id] live_A_C).2
              !! "C") as [cv|] eqn:Hcv; [|reflexivity].
  exfalso.
  assert (is_Some (sqlc.Cache live_A_C !! "C")) as [cv' Hcv'].
  { apply (tickerRefresh_never_adds_keys config [range_id; range_id]
             ltac:(repeat constructor; exact range_id_perm)
             live_A_C
             (sqlc.tickerRefresh config [range_id; range_id] live_A_C).2).
    - by destruct (sqlc.tickerRefresh config [range_id; range_id] live_A_C)
        as [[] ?].
    - by eexists. }
  vm_compute in Hcv'. discriminate.
Defined.

(** X13 on a run: a [Set] on a new client. *)
Lemma operations_keep_stamps_witness :
  sqlc.stamps_ok clock (sqlc.Client_Set config "k" "v" [] fresh).2.
Proof.
  apply (proj1 (proj2 (operations_keep_stamps config clock
                         scripted_clock_laws)
                  fresh
                  (proj1 (operations_keep_stamps config clock
                            scripted_clock_laws) _))
           "k" "v" [] (sqlc.Client_Set config "k" "v" [] fresh).1).
  - constructor.
  - by destruct (sqlc.Client_Set config "k" "v" [] fresh).
Defined.

(** X15 at a nil value. *)
Lemma CheckKeyAndValue_checks_only_key_witness :
  util.CheckKeyAndValue "k" (@None string) = None.
Proof.
  apply (proj1 (proj2 (CheckKeyAndValue_checks_only_key
                         (option string) "k" None))).
  done.
Defined.

(** X16 on a run: the delete affects no row, and the release fails. *)
Lemma direct_Del_reports_rows_affected_witness :
  exists w3,
    sqlc_direct.Client_Del client "k"
      (direct_start [ROpen None; affected 0; RClose (Some busy)])
    = ((false, None),
       mkStore w3
         (accesses (direct_start [ROpen None; affected 0; RClose (Some busy)])
            ++ [AOpen (sqlc_direct.DriverName client)
                      (sqlc_direct.DataSourceName client);
                AExec "del|k|||"; AClose])%list).
Proof.
  eexists.
  eapply (direct_Del_reports_rows_affected client "k"
            (direct_start [ROpen None; affected 0; RClose (Some busy)])
            _ _ _ _ 0);
    [done | reflexivity ..].
Defined.

(** X17 on a run: the statement executes, the release fails. *)
Lemma direct_Set_returns_statement_error_witness :
  exists (s1 : Store World) w5,
    sqlc_direct.Client_Set client "k" "v" []
      (direct_start [ROpen None; affected 1; RClose (Some busy)])
    = (None,
       mkStore w5
         (accesses s1
            ++ [AOpen (sqlc_direct.DriverName client)
                      (sqlc_direct.DataSourceName client);
                AExec "set|k|v|t10|t11"; AClose])%list).
Proof.
  eexists _, _.
  eapply (direct_Set_returns_statement_error client "k" "v" []
            (direct_start [ROpen None; affected 1; RClose (Some busy)])
            _ _ _ _ _ _ _ _ _ (inr (mkResult (inr 1))));
    [done | reflexivity ..].
Defined.

(** X18 on a run: two rows, and the release fails. *)
Lemma direct_Keys_returns_first_columns_witness :
  exists w3,
    sqlc_direct.Client_Keys client
      (direct_start [ROpen None; RQuery (inr [row1 "A"; row1 "C"]);
                     RClose (Some busy)])
    = ((["A"; "C"], None),
       mkStore w3
         (accesses
            (direct_start [ROpen None; RQuery (inr [row1 "A"; row1 "C"]);
                           RClose (Some busy)])
            ++ [AOpen (sqlc_direct.DriverName client)
                      (sqlc_direct.DataSourceName client);
                AQuery "keys||||"; AClose])%list).
Proof.
  eexists.
  eapply (direct_Keys_returns_first_columns client
            (direct_start [ROpen None; RQuery (inr [row1 "A"; row1 "C"]);
                           RClose (Some busy)]) _ _ _
            [("A", []); ("C", [])]);
    reflexivity.
Defined.

(** X19 on a run: one row of two columns. *)
Lemma direct_Get_one_row_witness :
  exists w3,
    sqlc_direct.Client_Get client "k" "" None
      (direct_start [ROpen None; RQuery (inr [row2 "v1" "2020"]);
                     RClose None])
    = ((true, gokv_any.mkOption 0 "2020", None, "v1"),
       mkStore w3
         (accesses
            (direct_start [ROpen None; RQuery (inr [row2 "v1" "2020"]);
                           RClose None])
            ++ [AOpen (sqlc_direct.DriverName client)
                      (sqlc_direct.DataSourceName client);
                AQuery "get|k|||"; AClose])%list).
Proof.
  eexists.
  eapply (direct_Get_one_row client "k" "" None
            (direct_start [ROpen None; RQuery (inr [row2 "v1" "2020"]);
                           RClose None]));
    [done | reflexivity ..].
Defined.

(** X20 on a run: no row, the hook generates, the write-through fails. *)
Lemma direct_Get_drops_Set_error_witness :
  exists s',
    sqlc_direct.Client_Get client "k" "" (Some generate_any)
      (direct_start [ROpen None; RQuery (inr []);
                     ROpen None; RExec (inl busy); RClose None; RClose None])
    = ((true, gokv_any.mkOption 5 "", None, "generated"), s').
Proof.
  eapply (direct_Get_drops_Set_error client "k" "" generate_any);
    [done | reflexivity ..].
Defined.

(** X21 at the empty configuration. *)
Lemma NewClient_Config_complete_witness :
  sqlc_plain.KeysSQL
    (sqlc_plain.NewClient_Config (sqlc_plain.mkConfig "" "dsn" "" "" "" "" 0))
  <> "".
Proof.
  apply (NewClient_Config_complete
           (sqlc_plain.mkConfig "" "dsn" "" "" "" "" 0)).
Defined.

(** X22 on a run: the delete statement fails, and [Del] returns nil with
    the entry gone. *)
Lemma plain_Del_always_nil_and_evicts_witness :
  exists c',
    sqlc_plain.Client_Del "k"
      (plain_cached [ROpen None; RExec (inl busy); RClose None])
    = (None, c') /\
    sqlc_plain.cache c'
    = delete "k"
        (sqlc_plain.cache
           (plain_cached [ROpen None; RExec (inl busy); RClose None])) /\
    sqlc_plain.Config_ c'
    = sqlc_plain.Config_
        (plain_cached [ROpen None; RExec (inl busy); RClose None]) /\
    forall k', k' <> "k" ->
      sqlc_plain.cache c' !! k'
      = sqlc_plain.cache
          (plain_cached [ROpen None; RExec (inl busy); RClose None]) !! k'.
Proof.
  exact (plain_Del_always_nil_and_evicts "k"
           (plain_cached [ROpen None; RExec (inl busy); RClose None])).
Defined.

(** X23 on a run: [Set], then [Get], on the empty key. *)
Lemma plain_Set_then_Get_witness :
  sqlc_plain.Client_Get ""
    (sqlc_plain.Client_Set "" "v"
       (plain_client ∅ [ROpen None; affected 1; RClose None])).2
  = ((true, "v", None),
     (sqlc_plain.Client_Set "" "v"
        (plain_client ∅ [ROpen None; affected 1; RClose None])).2).
Proof.
  apply (plain_Set_then_Get "" "v"
           (plain_client ∅ [ROpen None; affected 1; RClose None])).
  vm_compute. reflexivity.
Defined.

(** X24 on a run: ["k"] is cached, deleted, and read with no row left. *)
Lemma plain_Del_then_Get_absent_witness :
  exists query ce w3,
    sqlc_plain.Client_Get "k"
      (sqlc_plain.Client_Del "k"
         (plain_cached [ROpen None; affected 1; RClose None;
                        ROpen None; RQuery (inr []); RClose None])).2
    = ((false, "", ce),
       sqlc_plain.mkClient
         (sqlc_plain.Config_
            (plain_cached [ROpen None; affected 1; RClose None;
                           ROpen None; RQuery (inr []); RClose None]))
         (delete "k"
            (sqlc_plain.cache
               (plain_cached [ROpen None; affected 1; RClose None;
                              ROpen None; RQuery (inr []); RClose None])))
         (mkStore w3
            (accesses
               (sqlc_plain.store
                  (sqlc_plain.Client_Del "k"
                     (plain_cached
                        [ROpen None; affected 1; RClose None;
                         ROpen None; RQuery (inr []); RClose None])).2)
               ++ [AOpen
                     (sqlc_plain.DriverName
                        (sqlc_plain.Config_
                           (plain_cached
                              [ROpen None; affected 1; RClose None;
                               ROpen None; RQuery (inr []); RClose None])))
                     (sqlc_plain.DataSourceName
                        (sqlc_plain.Config_
                           (plain_cached
                              [ROpen None; affected 1; RClose None;
                               ROpen None; RQuery (inr []); RClose None])));
                   AQuery query; AClose])%list)).
Proof.
  eexists _, _, _.
  eapply (plain_Del_then_Get_absent "k"
            (plain_cached [ROpen None; affected 1; RClose None;
                           ROpen None; RQuery (inr []); RClose None]));
    reflexivity.
Defined.
